(** * ScannerStore: multipart frame assembly, account resolution and signing

    A shallow embedding of [ScannerStore] (the scanner container of the
    signer application) together with the network table of [constants].
    JavaScript numbers that the store handles are frame counters and byte
    values, modelled as [Z]; byte arrays ([Uint8Array]) are lists of [Z];
    the object [multipartData], used as a dictionary keyed by frame index,
    is a [gmap Z (list Z)].

    [Container.setState] of the state library merges a partial object into
    the state in a later microtask.  No method of the store reads a field
    back after it has scheduled an update of that field (they all work on
    the values destructured at entry), so each method is modelled as a
    function from the state at entry to the state once every scheduled
    update has been merged, in program order. *)

From stdpp Require Import gmap strings list sorting.
From Stdlib Require Import ZArith Lia Ascii.

Local Open Scope Z_scope.

(** ** JavaScript values and helpers *)

Module Js.

(** Completion of a call: a normal result or a thrown exception
    (a rejected promise, for the [async] methods). *)
Inductive Res (A : Type) : Type :=
| Ok (a : A)
| Throw (msg : string).
Arguments Ok {A} a.
Arguments Throw {A} msg.

Definition bind {A B} (r : Res A) (k : A → Res B) : Res B :=
  match r with
  | Ok a => k a
  | Throw e => Throw e
  end.

Notation "'let!' x ':=' r 'in' k" := (bind r (fun x => k))
  (at level 10, x name, r at level 100, k at level 200).

(** The values that meet in a strict comparison inside the store: an
    element read out of a typed array is a number, or [undefined] when the
    index is out of range; [new Uint8Array(..)] evaluates to a reference to
    a newly allocated object. *)
Inductive value : Type :=
| JUndefined
| JNumber (n : Z)
| JObject (ref : nat).

(** [a === b]: same type and same value; objects are compared by
    reference. *)
Definition strict_equals (a b : value) : bool :=
  match a, b with
  | JUndefined, JUndefined => true
  | JNumber x, JNumber y => x =? y
  | JObject r1, JObject r2 => Nat.eqb r1 r2
  | _, _ => false
  end.

(** [arr[i]] on a typed array. *)
Definition u8a_get (arr : list Z) (i : nat) : value :=
  match arr !! i with
  | Some b => JNumber b
  | None => JUndefined
  end.

(** Storing a number into a [Uint8Array] slot: [NaN] becomes 0, anything
    else is reduced modulo 256. [None] stands for [NaN]. *)
Definition toUint8 (v : option Z) : Z :=
  match v with
  | None => 0
  | Some z => z `mod` 256
  end.

Definition code (c : ascii) : Z := Z.of_nat (nat_of_ascii c).

Definition hexDigit (c : ascii) : option Z :=
  let n := code c in
  if (48 <=? n) && (n <=? 57) then Some (n - 48)
  else if (97 <=? n) && (n <=? 102) then Some (n - 87)
  else if (65 <=? n) && (n <=? 70) then Some (n - 55)
  else None.

(** White space that [parseInt] skips, among the code units below 256. *)
Definition isWhiteSpace (c : ascii) : bool :=
  let n := code c in
  ((9 <=? n) && (n <=? 13)) || (n =? 32) || (n =? 160).

Fixpoint skipWhiteSpace (s : string) : string :=
  match s with
  | String c s' => if isWhiteSpace c then skipWhiteSpace s' else s
  | EmptyString => s
  end.

(** The longest run of hexadecimal digits at the head of [s], read as a
    number; [acc] is [None] as long as no digit has been read. *)
Fixpoint hexRun (acc : option Z) (s : string) : option Z :=
  match s with
  | String c s' =>
      match hexDigit c with
      | Some d => hexRun (Some (16 * default 0 acc + d)) s'
      | None => acc
      end
  | EmptyString => acc
  end.

Definition stripRadixPrefix (s : string) : string :=
  match s with
  | String "0" (String "x" s') => s'
  | String "0" (String "X" s') => s'
  | _ => s
  end.

(** [parseInt(s, 16)]; [None] is [NaN]. *)
Definition parseInt16 (s : string) : option Z :=
  match skipWhiteSpace s with
  | String "-" s' => Z.opp <$> hexRun None (stripRadixPrefix s')
  | String "+" s' => hexRun None (stripRadixPrefix s')
  | s' => hexRun None (stripRadixPrefix s')
  end.

(** [Array.prototype.includes] on an array of numbers. *)
Definition includes (x : Z) (l : list Z) : bool := bool_decide (x ∈ l).

(** [arr.splice(arr.indexOf(x), 1)] when [x] occurs in [arr]: the first
    occurrence is removed. *)
Fixpoint spliceFirst (x : Z) (l : list Z) : list Z :=
  match l with
  | [] => []
  | y :: l' => if bool_decide (x = y) then l' else y :: spliceFirst x l'
  end.

(** [Array.from(new Set(l))]: a [Set] keeps the first insertion of every
    value, in insertion order. *)
Definition setFrom (l : list Z) : list Z :=
  foldl (fun acc x => if includes x acc then acc else acc ++ [x]) [] l.

(** [Object.values(o)] for an object whose keys are frame indices: integer
    keys are enumerated in ascending numeric order.  (Frame indices come
    out of a 16-bit header field, so every key is an array index.) *)
Definition objectKeys {A} (o : gmap Z A) : list Z :=
  merge_sort Z.le (elements (dom o)).

Definition objectValues {A} (o : gmap Z A) : list A :=
  omap (fun k => o !! k) (objectKeys o).

(** [u8aToHex(bytes, -1, isPrefixed)] of the utility library: two
    lower-case hexadecimal digits per byte. *)
Definition hexChar (d : Z) : ascii :=
  if d <? 10 then ascii_of_nat (Z.to_nat (48 + d))
  else ascii_of_nat (Z.to_nat (87 + d)).

Fixpoint hexEncode (bytes : list Z) : string :=
  match bytes with
  | [] => EmptyString
  | b :: bs => String (hexChar (b `div` 16)) (String (hexChar (b `mod` 16)) (hexEncode bs))
  end.

Definition u8aToHex (bytes : list Z) (isPrefixed : bool) : string :=
  if isPrefixed then "0x" +:+ hexEncode bytes else hexEncode bytes.

(** [u8aConcat(a, b, ...)]. *)
Definition u8aConcat (parts : list (list Z)) : list Z := List.concat parts.

End Js.

Import Js.

(** ** The network table ([constants]) *)

Module Constants.

Inductive NetworkProtocol : Type := ETHEREUM | SUBSTRATE | UNKNOWN.

Definition protocol_eqb (a b : NetworkProtocol) : bool :=
  match a, b with
  | ETHEREUM, ETHEREUM | SUBSTRATE, SUBSTRATE | UNKNOWN, UNKNOWN => true
  | _, _ => false
  end.

(** The fields of a network entry that the store reads. Ethereum entries
    carry no [prefix]. *)
Record NetworkParams : Type := {
  title : string;
  prefix : option Z;
  protocol : NetworkProtocol
}.

Record SubstrateNetworkParams : Type := {
  sTitle : string;
  sPathId : string;
  sPrefix : Z
}.

Definition KUSAMA : string :=
  "0xb0a8d493285c2df73290dfb7e61f870f17b41801197a149ca93654499ea3dafe".
Definition KUSAMA_CC2 : string :=
  "0xe3777fa922cafbff200cadeaea1a76bd7898ad5b89f7848999058b50e715f636".
Definition KUSAMA_DEV : string :=
  "0x5e9679182f658e148f33d3f760f11179977398bb3da8d1f0bf7b267fe6b3ebb0".
Definition CENTRIFUGE : string :=
  "0x0000000000000000000000000000000000000000000000000000000000000001".
Definition CENTRIFUGE_AMBER : string :=
  "0x14ad1761c377ea2aac9a1f7edc648c8b7b64f2f7a1667330f4b5eeec65ab8a3f".
Definition SUBSTRATE_DEV : string :=
  "0x0d667fd278ec412cd9fccdb066f09ed5b4cfd9c9afa9eb747213acb02b1e70bc".

(** [substrateNetworkBase], in declaration order; the keys are not integer
    strings, so [Object.keys] enumerates them in this order. *)
Definition substrateNetworkBase : list (string * SubstrateNetworkParams) :=
  [ (KUSAMA, {| sTitle := "Kusama"; sPathId := "kusama"; sPrefix := 2 |});
    (KUSAMA_CC2, {| sTitle := "Kusama"; sPathId := "kusama_CC2"; sPrefix := 2 |});
    (KUSAMA_DEV,
      {| sTitle := "Kusama Development"; sPathId := "kusama_dev"; sPrefix := 2 |});
    (SUBSTRATE_DEV,
      {| sTitle := "Substrate Development"; sPathId := "substrate_dev"; sPrefix := 42 |});
    (CENTRIFUGE_AMBER,
      {| sTitle := "Centrifuge Amber Testnet"; sPathId := "centrifuge_amber";
         sPrefix := 42 |});
    (CENTRIFUGE,
      {| sTitle := "Centrifuge Mainnet"; sPathId := "centrifuge"; sPrefix := 36 |}) ].

(** [setDefault] keeps keys and order and adds the protocol. *)
Definition SUBSTRATE_NETWORK_LIST : list (string * SubstrateNetworkParams) :=
  substrateNetworkBase.

Definition ethereumNetworkBase : list (string * string) :=
  [ ("1", "Ethereum"); ("61", "Ethereum Classic"); ("3", "Ropsten Testnet");
    ("5", "Görli Testnet"); ("42", "Kovan Testnet") ].

Definition substrateEntry (e : string * SubstrateNetworkParams) : string * NetworkParams :=
  (e.1, {| title := sTitle e.2; prefix := Some (sPrefix e.2); protocol := SUBSTRATE |}).

Definition ethereumEntry (e : string * string) : string * NetworkParams :=
  (e.1, {| title := e.2; prefix := None; protocol := ETHEREUM |}).

Definition UNKNOWN_NETWORK : list (string * NetworkParams) :=
  [ ("unknown", {| title := "Custom network"; prefix := Some 2; protocol := UNKNOWN |}) ].

Definition NETWORK_LIST_entries : list (string * NetworkParams) :=
  (substrateEntry <$> SUBSTRATE_NETWORK_LIST)
  ++ (ethereumEntry <$> ethereumNetworkBase)
  ++ UNKNOWN_NETWORK.

(** The names that every object inherits from [Object.prototype].  They
    are no network keys (those are genesis hashes, chain ids and
    [unknown]), but a lookup under one of them does not give [undefined]:
    it gives the inherited value, whose [protocol] and [title] are
    [undefined]. *)
Definition objectPrototypeNames : list string :=
  [ "constructor"; "__defineGetter__"; "__defineSetter__"; "hasOwnProperty";
    "__lookupGetter__"; "__lookupSetter__"; "isPrototypeOf";
    "propertyIsEnumerable"; "toString"; "valueOf"; "__proto__";
    "toLocaleString" ].

(** [NETWORK_LIST[key]] for a key that is not one of
    [objectPrototypeNames]: the entry of the table under that key; [None]
    is [undefined]. *)
Definition NETWORK_LIST (key : string) : option NetworkParams :=
  snd <$> List.find (fun e => String.eqb e.1 key) NETWORK_LIST_entries.

End Constants.

Import Constants.

(** ** Data handled by the store *)

(** A decoded extrinsic payload ([GenericExtrinsicPayload] of the type
    library), seen through the one method the store calls:
    [toU8a(isBare)]. *)
Record GenericExtrinsicPayload : Type := {
  toU8a : bool → list Z
}.

(** What [dataToSign] and the signable handed to a backend can be. *)
Inductive JsData : Type :=
| DUndefined
| DString (s : string)
| DU8a (bytes : list Z)
| DPayload (p : GenericExtrinsicPayload).

Record Account : Type := {
  address : string;
  networkKey : string;
  pinKey : string;
  encryptedSeed : string
}.

(** The account store, seen through the lookup the store uses. *)
Record AccountsStore : Type := {
  getAccountByAddress : string → option Account
}.

(** The [data] object of a decoded request. *)
Record RequestData : Type := {
  account : string;
  crypto : option string;
  data : JsData;
  rlp : option string
}.

Record SignRequest : Type := {
  action : string;
  reqData : RequestData;
  reqIsHash : bool;
  oversized : bool;
  preHash : option GenericExtrinsicPayload
}.

(** The result of [constructDataFromBytes]: a frame of a multipart payload
    ([isMultipart] set) or a complete request. *)
Inductive ParsedData : Type :=
| MultipartFrame (currentFrame frameCount : Z) (partData : string)
| Complete (request : SignRequest).

Definition withAccount (r : SignRequest) (a : string) : SignRequest :=
  {| action := action r;
     reqData := {| account := a; crypto := crypto (reqData r);
                   data := data (reqData r); rlp := rlp (reqData r) |};
     reqIsHash := reqIsHash r; oversized := oversized r; preHash := preHash r |}.

(** The fields of [ScannerState] that the modelled methods read or write
    ([isOversized], [message], [recipient], [tx], [txRequest] and [type]
    are touched by [setDataToSign] and [setTXRequest] only). *)
Record ScannerState : Type := {
  busy : bool;
  completedFramesCount : Z;
  dataToSign : JsData;
  isHash : bool;
  latestFrame : option Z;
  missedFrames : list Z;
  multipartComplete : bool;
  multipartData : gmap Z (list Z);
  prehash : option GenericExtrinsicPayload;
  scanErrorMsg : string;
  sender : option Account;
  signedData : string;
  totalFrameCount : Z;
  unsignedData : option SignRequest
}.

Definition DEFAULT_STATE : ScannerState := {|
  busy := false;
  completedFramesCount := 0;
  dataToSign := DString "";
  isHash := false;
  latestFrame := None;
  missedFrames := [];
  multipartComplete := false;
  multipartData := ∅;
  prehash := None;
  scanErrorMsg := "";
  sender := None;
  signedData := "";
  totalFrameCount := 0;
  unsignedData := None
|}.

(** ** [setState]

    [this.setState({ field: v })] merges the given fields into the state
    and leaves the others as they are; one function per partial object
    that the modelled methods pass. *)

Definition set_busy (v : bool) (s : ScannerState) : ScannerState :=
  {| busy := v; completedFramesCount := completedFramesCount s;
     dataToSign := dataToSign s; isHash := isHash s;
     latestFrame := latestFrame s; missedFrames := missedFrames s;
     multipartComplete := multipartComplete s;
     multipartData := multipartData s; prehash := prehash s;
     scanErrorMsg := scanErrorMsg s; sender := sender s;
     signedData := signedData s; totalFrameCount := totalFrameCount s;
     unsignedData := unsignedData s |}.

Definition set_completedFramesCount (v : Z) (s : ScannerState) : ScannerState :=
  {| busy := busy s; completedFramesCount := v; dataToSign := dataToSign s;
     isHash := isHash s; latestFrame := latestFrame s;
     missedFrames := missedFrames s; multipartComplete := multipartComplete s;
     multipartData := multipartData s; prehash := prehash s;
     scanErrorMsg := scanErrorMsg s; sender := sender s;
     signedData := signedData s; totalFrameCount := totalFrameCount s;
     unsignedData := unsignedData s |}.

Definition set_totalFrameCount (v : Z) (s : ScannerState) : ScannerState :=
  {| busy := busy s; completedFramesCount := completedFramesCount s;
     dataToSign := dataToSign s; isHash := isHash s;
     latestFrame := latestFrame s; missedFrames := missedFrames s;
     multipartComplete := multipartComplete s;
     multipartData := multipartData s; prehash := prehash s;
     scanErrorMsg := scanErrorMsg s; sender := sender s;
     signedData := signedData s; totalFrameCount := v;
     unsignedData := unsignedData s |}.

Definition set_multipartComplete (v : bool) (s : ScannerState) : ScannerState :=
  {| busy := busy s; completedFramesCount := completedFramesCount s;
     dataToSign := dataToSign s; isHash := isHash s;
     latestFrame := latestFrame s; missedFrames := missedFrames s;
     multipartComplete := v; multipartData := multipartData s;
     prehash := prehash s; scanErrorMsg := scanErrorMsg s; sender := sender s;
     signedData := signedData s; totalFrameCount := totalFrameCount s;
     unsignedData := unsignedData s |}.

Definition set_missedFrames (v : list Z) (s : ScannerState) : ScannerState :=
  {| busy := busy s; completedFramesCount := completedFramesCount s;
     dataToSign := dataToSign s; isHash := isHash s;
     latestFrame := latestFrame s; missedFrames := v;
     multipartComplete := multipartComplete s;
     multipartData := multipartData s; prehash := prehash s;
     scanErrorMsg := scanErrorMsg s; sender := sender s;
     signedData := signedData s; totalFrameCount := totalFrameCount s;
     unsignedData := unsignedData s |}.

Definition set_latestFrame_multipartData (f : Z) (d : gmap Z (list Z)) (s : ScannerState) : ScannerState :=
  {| busy := busy s; completedFramesCount := completedFramesCount s;
     dataToSign := dataToSign s; isHash := isHash s; latestFrame := Some f;
     missedFrames := missedFrames s; multipartComplete := multipartComplete s;
     multipartData := d; prehash := prehash s; scanErrorMsg := scanErrorMsg s;
     sender := sender s; signedData := signedData s;
     totalFrameCount := totalFrameCount s; unsignedData := unsignedData s |}.

Definition set_unsignedData (v : SignRequest) (s : ScannerState) : ScannerState :=
  {| busy := busy s; completedFramesCount := completedFramesCount s;
     dataToSign := dataToSign s; isHash := isHash s;
     latestFrame := latestFrame s; missedFrames := missedFrames s;
     multipartComplete := multipartComplete s;
     multipartData := multipartData s; prehash := prehash s;
     scanErrorMsg := scanErrorMsg s; sender := sender s;
     signedData := signedData s; totalFrameCount := totalFrameCount s;
     unsignedData := Some v |}.

Definition set_scanErrorMsg (v : string) (s : ScannerState) : ScannerState :=
  {| busy := busy s; completedFramesCount := completedFramesCount s;
     dataToSign := dataToSign s; isHash := isHash s;
     latestFrame := latestFrame s; missedFrames := missedFrames s;
     multipartComplete := multipartComplete s;
     multipartData := multipartData s; prehash := prehash s;
     scanErrorMsg := v; sender := sender s; signedData := signedData s;
     totalFrameCount := totalFrameCount s; unsignedData := unsignedData s |}.

Definition set_prehash (v : option GenericExtrinsicPayload) (s : ScannerState) : ScannerState :=
  {| busy := busy s; completedFramesCount := completedFramesCount s;
     dataToSign := dataToSign s; isHash := isHash s;
     latestFrame := latestFrame s; missedFrames := missedFrames s;
     multipartComplete := multipartComplete s;
     multipartData := multipartData s; prehash := v;
     scanErrorMsg := scanErrorMsg s; sender := sender s;
     signedData := signedData s; totalFrameCount := totalFrameCount s;
     unsignedData := unsignedData s |}.

Definition set_signedData (v : string) (s : ScannerState) : ScannerState :=
  {| busy := busy s; completedFramesCount := completedFramesCount s;
     dataToSign := dataToSign s; isHash := isHash s;
     latestFrame := latestFrame s; missedFrames := missedFrames s;
     multipartComplete := multipartComplete s;
     multipartData := multipartData s; prehash := prehash s;
     scanErrorMsg := scanErrorMsg s; sender := sender s; signedData := v;
     totalFrameCount := totalFrameCount s; unsignedData := unsignedData s |}.

(** ** What the store imports *)

(** Modelled from the spec: [mod] of [util/numbers] is not among the
    sources ([mod] is a reserved word here, hence the name); the spec
    writes the forward distance with [mod totalFrameCount], the remainder
    that lies in [[0, m)]. *)
Definition numbers_mod (n m : Z) : Z := n `mod` m.

(** Modelled from the spec: [encodeNumber] of [util/decoders] is not among
    the sources; the frame header holds the frame count and the frame index
    as big-endian 16-bit numbers. *)
Definition encodeNumber (v : Z) : list Z := [(v `div` 256) `mod` 256; v `mod` 256].

(** A call of one of the native signing functions ([util/native]). *)
Inductive BackendCall : Type :=
| SecureEthkeySign (appId pin : string) (signable : JsData) (seed : string)
| SecureSubstrateSign (appId pin : string) (signable : JsData) (seed : string)
    (legacy : bool)
| BrainWalletSign (suri : string) (payload : JsData)
| SubstrateSign (suri : string) (signable : JsData).

(** The imported functions whose code is outside the store.  Those that
    can throw, or whose promise can be rejected, return a [Res].
    [decodeAddress] gives the key of an address and throws on a text that
    is no address of the format; [encodeAddress] gives the address of a
    key under a prefix and throws on a key it does not accept. *)
Class Externals : Type := {
  APP_ID : string;
  constructDataFromBytes : list Z → bool → Res ParsedData;
  decodeAddress : string → Res (list Z);
  encodeAddress : list Z → Z → Res string;
  isAscii : JsData → bool;
  asciiToHex : JsData → Res string;
  hexStripPrefix : JsData → Res string;
  hexToU8a : string → Res (list Z);
  native : BackendCall → Res string
}.

Definition MULTIPART : list Z := [0].
Definition SIG_TYPE_SR25519 : list Z := [1].

(** ** The store *)

Section Store.

Context `{Ext : Externals}.

(** The [for] loop of [setParsedData]: the first network of [networks]
    under whose prefix the re-encoded address is found in the account
    store.  Every turn decodes the address and encodes the key again; the
    loop is not inside a [try], so an exception of the codec ends it. *)
Fixpoint findOnNetworks (networks : list (string * SubstrateNetworkParams))
    (accountsStore : AccountsStore) (address : string) : Res (option Account) :=
  match networks with
  | [] => Ok None
  | (_, params) :: rest =>
      let! key := decodeAddress address in
      let! encoded := encodeAddress key (sPrefix params) in
      match getAccountByAddress accountsStore encoded with
      | Some account => Ok (Some account)
      | None => findOnNetworks rest accountsStore address
      end
  end.

Definition noPrivateKeyMsg (address : string) : string :=
  "No private key found for " +:+ address +:+ " in your signer key storage.".

(** [setParsedData] from the account lookup on, for a decoded request.
    An exception of the codec inside the loop rejects the call before any
    update of the state is scheduled. *)
Definition setRequest (parsedData : SignRequest) (accountsStore : AccountsStore)
    (st : ScannerState) : ScannerState * Res unit :=
  match getAccountByAddress accountsStore (account (reqData parsedData)) with
  | Some _ =>
      (set_prehash (preHash parsedData) (set_unsignedData parsedData st), Ok ())
  | None =>
      match findOnNetworks SUBSTRATE_NETWORK_LIST accountsStore
              (account (reqData parsedData)) with
      | Throw e => (st, Throw e)
      | Ok (Some found) =>
          (* return inside the loop *)
          (set_unsignedData (withAccount parsedData (address found)) st, Ok ())
      | Ok None =>
          (set_prehash (preHash parsedData)
             (set_scanErrorMsg (noPrivateKeyMsg (account (reqData parsedData))) st),
           Ok ())
      end
  end.

(** [setParsedData(strippedData, accountsStore, true)]: the multipart test
    is skipped; reading [parsedData.data.account] of a result without
    [data] is a [TypeError]. *)
Definition setParsedDataComplete (strippedData : list Z) (accountsStore : AccountsStore)
    (st : ScannerState) : ScannerState * Res unit :=
  match constructDataFromBytes strippedData true with
  | Throw e => (st, Throw e)
  | Ok (MultipartFrame _ _ _) => (st, Throw "TypeError")
  | Ok (Complete parsedData) => setRequest parsedData accountsStore st
  end.

(** The bytes of [partData], two hexadecimal characters per byte.  The
    decoder hands over the hexadecimal text of the fragment, of even
    length; the array has [partData.length / 2] slots, rounded down. *)
Definition partDataAsBytes (partData : string) : list Z :=
  (fun i => toUint8 (parseInt16 (String.substring (i * 2) 2 partData)))
    <$> seq 0 (String.length partData / 2)%nat.

(** The reserved-byte test of [setPartData].  Each operand on the right is
    a typed array allocated by the comparison itself; [ref0] and [ref1]
    are the references of the two arrays. *)
Definition invalidPartData (bytes : list Z) (ref0 ref1 : nat) : bool :=
  strict_equals (u8a_get bytes 0) (JObject ref0)
  || strict_equals (u8a_get bytes 0) (JObject ref1).

(** [latestFrame] as a condition: [null] and [0] are falsy. *)
Definition truthy (latestFrame : option Z) : bool :=
  match latestFrame with
  | Some l => negb (l =? 0)
  | None => false
  end.

(** [frame - latestFrame] and [i + latestFrame]: [null] converts to 0. *)
Definition toNumber (latestFrame : option Z) : Z := default 0 latestFrame.

(** The blob that the completion branch hands to [setParsedData]. *)
Definition completionBlob (multipartData : gmap Z (list Z))
    (totalFrameCount frame : Z) : list Z :=
  let concatMultipartData := List.concat (objectValues multipartData) in
  let frameInfo :=
    u8aConcat [MULTIPART; encodeNumber totalFrameCount; encodeNumber frame] in
  u8aConcat [frameInfo; concatMultipartData].

(** [missedFrames] once the storing branch has run.  The update scheduled
    by [setState] carries an array built before the [splice]; the [splice]
    changes the array of the state at entry in place, so it shows in the
    final state only when no update of [missedFrames] was scheduled. *)
Definition nextMissedFrames (frame totalFrameCount : Z) (latestFrame : option Z)
    (missedFrames : list Z) : list Z :=
  let missedFramesRange := numbers_mod (frame - toNumber latestFrame) totalFrameCount - 1 in
  let spliced :=
    if includes (frame - 1) missedFrames
    then spliceFirst (frame - 1) missedFrames
    else missedFrames in
  if truthy latestFrame && (1 <=? missedFramesRange) && negb (includes frame missedFrames)
  then
    let updatedMissedFrames :=
      (fun i => numbers_mod (i + toNumber latestFrame) totalFrameCount)
        <$> seqZ 0 missedFramesRange in
    setFrom (missedFrames ++ updatedMissedFrames)
  else spliced.

Definition setPartData (frame frameCount : Z) (partData : string)
    (accountsStore : AccountsStore) (st : ScannerState) : ScannerState * Res unit :=
  let latestFrame := latestFrame st in
  let missedFrames := missedFrames st in
  let multipartComplete := multipartComplete st in
  let multipartData := multipartData st in
  let totalFrameCount := totalFrameCount st in
  (* set it once only *)
  let st1 := if totalFrameCount =? 0 then set_totalFrameCount frameCount st else st in
  let bytes := partDataAsBytes partData in
  if invalidPartData bytes 0 1 then
    (st1, Throw "Error decoding invalid part data.")
  else
    let completedFramesCount := Z.of_nat (size multipartData) in
    let st2 :=
      if (0 <? completedFramesCount) && (0 <? totalFrameCount)
         && (completedFramesCount =? totalFrameCount) && negb multipartComplete
      then
        (* all the frames are filled; the nested call is not awaited, so
           its rejection does not reach the caller *)
        (setParsedDataComplete
           (completionBlob multipartData totalFrameCount frame) accountsStore
           (set_multipartComplete true st1)).1
      else if completedFramesCount <? totalFrameCount then
        let nextDataState := <[frame := bytes]> multipartData in
        set_latestFrame_multipartData frame nextDataState
          (set_missedFrames
             (nextMissedFrames frame totalFrameCount latestFrame missedFrames) st1)
      else st1 in
    (set_completedFramesCount completedFramesCount st2, Ok ()).

(** [setParsedData]; the call of [setPartData] is not awaited. *)
Definition setParsedData (strippedData : list Z) (accountsStore : AccountsStore)
    (multipartComplete : bool) (st : ScannerState) : ScannerState * Res unit :=
  if multipartComplete then setParsedDataComplete strippedData accountsStore st
  else
    match constructDataFromBytes strippedData false with
    | Throw e => (st, Throw e)
    | Ok (MultipartFrame currentFrame frameCount partData) =>
        ((setPartData currentFrame frameCount partData accountsStore st).1, Ok ())
    | Ok (Complete parsedData) => setRequest parsedData accountsStore st
    end.

(** A scan session: the frames handed to [setPartData] one after the
    other. *)
Definition submitFrames (frames : list (Z * Z * string)) (accountsStore : AccountsStore)
    (st : ScannerState) : ScannerState :=
  foldl (fun s f => (setPartData f.1.1 f.1.2 f.2 accountsStore s).1) st frames.

(** *** Signing *)

(** What a signing method leaves behind: the state, its completion
    ([Ok None] for a plain return, [Ok (Some b)] for [return b], [Throw]
    for a rejected promise) and the calls it made to the native signing
    functions, in order. *)
Record SignOutcome : Type := {
  after : ScannerState;
  completion : Res (option bool);
  calls : list BackendCall
}.

Definition setBusy (st : ScannerState) : ScannerState := set_busy true st.

(** [sender] and
    [NETWORK_LIST[sender.networkKey].protocol === NetworkProtocols.ETHEREUM];
    reading [networkKey] of a [null] sender is a [TypeError], and so is
    reading [protocol] of [undefined].  Under a name that the table
    inherits the lookup gives a value without [protocol], and the
    comparison is false. *)
Definition senderIsEthereum (st : ScannerState) : Res (Account * bool) :=
  match sender st with
  | None => Throw "TypeError"
  | Some sender =>
      match NETWORK_LIST (networkKey sender) with
      | Some params => Ok (sender, protocol_eqb (protocol params) ETHEREUM)
      | None =>
          if bool_decide (networkKey sender ∈ objectPrototypeNames)
          then Ok (sender, false)
          else Throw "TypeError"
      end
  end.

Definition isPayload (d : JsData) : bool :=
  match d with DPayload _ => true | _ => false end.

Definition isU8a (d : JsData) : bool :=
  match d with DU8a _ => true | _ => false end.

(** The chain of tests that both signing methods use for a request that is
    not an Ethereum one; it has no final [else], so [signable] stays
    [undefined] when no test holds. *)
Definition buildSignable (dataToSign : JsData) (isHash : bool) : Res JsData :=
  match dataToSign with
  | DPayload p => Ok (DString (u8aToHex (toU8a p true) false))
  | _ =>
      if isHash then
        let! h := hexStripPrefix dataToSign in Ok (DString h)
      else
        match dataToSign with
        | DU8a bytes =>
            let! h := hexStripPrefix (DString (u8aToHex bytes true)) in Ok (DString h)
        | _ =>
            if isAscii dataToSign then
              let! a := asciiToHex dataToSign in
              let! h := hexStripPrefix (DString a) in Ok (DString h)
            else Ok DUndefined
        end
  end.

(** [u8aToHex(u8aConcat(SIG_TYPE_SR25519, hexToU8a('0x' + signed)), -1, false)] *)
Definition tagSignature (signed : string) : Res string :=
  let! raw := hexToU8a ("0x" +:+ signed) in
  Ok (u8aToHex (u8aConcat [SIG_TYPE_SR25519; raw]) false).

Definition signDataBiometric (legacy : bool) (st : ScannerState) : SignOutcome :=
  match senderIsEthereum st with
  | Throw e => {| after := st; completion := Throw e; calls := [] |}
  | Ok (sender, isEthereum) =>
      match (if isEthereum then Ok (dataToSign st)
             else buildSignable (dataToSign st) (isHash st)) with
      | Throw e => {| after := st; completion := Throw e; calls := [] |}
      | Ok signable =>
          let call :=
            if isEthereum
            then SecureEthkeySign APP_ID (pinKey sender) signable (encryptedSeed sender)
            else SecureSubstrateSign APP_ID (pinKey sender) signable
                   (encryptedSeed sender) legacy in
          (* try { ... } *)
          match (let! signedData := native call in
                 if isEthereum then Ok signedData else tagSignature signedData) with
          | Ok signedData =>
              {| after := set_signedData signedData st; completion := Ok None;
                 calls := [call] |}
          | Throw _ =>
              (* catch (e) { console.log(e); return false; } *)
              {| after := st; completion := Ok (Some false); calls := [call] |}
          end
      end
  end.

Definition signDataWithSuri (suri : string) (st : ScannerState) : SignOutcome :=
  match senderIsEthereum st with
  | Throw e => {| after := st; completion := Throw e; calls := [] |}
  | Ok (sender, isEthereum) =>
      if isEthereum then
        let call := BrainWalletSign suri (dataToSign st) in
        match native call with
        | Ok signedData =>
            {| after := set_signedData signedData st; completion := Ok None;
               calls := [call] |}
        | Throw e => {| after := st; completion := Throw e; calls := [call] |}
        end
      else
        match buildSignable (dataToSign st) (isHash st) with
        | Throw e => {| after := st; completion := Throw e; calls := [] |}
        | Ok signable =>
            let call := SubstrateSign suri signable in
            match (let! signed := native call in tagSignature signed) with
            | Ok signedData =>
                {| after := set_signedData signedData st; completion := Ok None;
                   calls := [call] |}
            | Throw e => {| after := st; completion := Throw e; calls := [call] |}
            end
        end
  end.

End Store.

(** ** A concrete environment

    An instance of the imported functions on which the methods can be run:
    a toy address codec (an address is its network prefix, as one
    character, followed by the characters of the key; a text with a space
    in it is no address), a decoder that
    reads the bytes after the five-byte frame header as the address of a
    message request, and a signing backend given as a parameter. *)

Module Env.

Definition chars (s : string) : list Z := code <$> String.list_ascii_of_string s.

Definition text (bytes : list Z) : string :=
  String.string_of_list_ascii ((fun b => ascii_of_nat (Z.to_nat b)) <$> bytes).

Definition decodeAddress (address : string) : Res (list Z) :=
  if existsb (fun c => code c =? 32) (String.list_ascii_of_string address)
  then Throw "Non-base58 character"
  else
    match address with
    | String _ key => Ok (chars key)
    | EmptyString => Ok []
    end.

Definition encodeAddress (key : list Z) (prefix : Z) : Res string :=
  Ok (String (ascii_of_nat (Z.to_nat prefix)) (text key)).

Definition request (address : string) : SignRequest :=
  {| action := "signData";
     reqData := {| account := address; crypto := Some "sr25519";
                   data := DString "hello"; rlp := None |};
     reqIsHash := false; oversized := false;
     preHash := Some {| toU8a := fun _ => [104; 105] |} |}.

Definition constructDataFromBytes (bytes : list Z) (multipartComplete : bool)
    : Res ParsedData :=
  match bytes with
  | 0 :: _ :: _ :: _ :: _ :: payload => Ok (Complete (request (text payload)))
  | _ => Throw "undecodable"
  end.

Definition isAscii (d : JsData) : bool :=
  match d with
  | DString s => forallb (fun c => code c <? 128) (String.list_ascii_of_string s)
  | _ => true
  end.

Definition asciiToHex (d : JsData) : Res string :=
  match d with
  | DString s => Ok ("0x" +:+ hexEncode (chars s))
  | _ => Throw "TypeError"
  end.

Definition hexStripPrefix (d : JsData) : Res string :=
  match d with
  | DString (String "0" (String "x" s)) => Ok s
  | DString s => Ok s
  | _ => Throw "Invalid hex"
  end.

Fixpoint hexPairs (s : string) : Res (list Z) :=
  match s with
  | EmptyString => Ok []
  | String a (String b s') =>
      match hexDigit a, hexDigit b with
      | Some x, Some y => let! rest := hexPairs s' in Ok ((16 * x + y) :: rest)
      | _, _ => Throw "Expected hex value to convert"
      end
  | String _ EmptyString => Throw "Expected hex value to convert"
  end.

Definition hexToU8a (s : string) : Res (list Z) :=
  match s with
  | String "0" (String "x" s') => hexPairs s'
  | _ => Throw "Expected hex value to convert"
  end.

Definition externals (backend : BackendCall → Res string) : Externals :=
  Build_Externals "signer" constructDataFromBytes decodeAddress encodeAddress
    isAscii asciiToHex hexStripPrefix hexToU8a backend.

(** A backend that signs everything with the same two bytes, and one that
    rejects every request. *)
Definition signing : BackendCall → Res string := fun _ => Ok "c0de".
Definition rejecting : BackendCall → Res string := fun _ => Throw "rejected".

(** An account store that holds one account, under the prefix 42. *)
Definition alice : Account :=
  {| address := String (ascii_of_nat 42) "alice";
     networkKey := SUBSTRATE_DEV; pinKey := "pin"; encryptedSeed := "seed" |}.

Definition accounts : AccountsStore :=
  {| getAccountByAddress := fun a =>
       if String.eqb a (address alice) then Some alice else None |}.

(** A state in which [alice] is about to sign [dataToSign]. *)
Definition signingState (dataToSign : JsData) (isHash : bool) : ScannerState :=
  {| busy := true; completedFramesCount := 0; dataToSign := dataToSign;
     isHash := isHash; latestFrame := None; missedFrames := [];
     multipartComplete := false; multipartData := ∅; prehash := None;
     scanErrorMsg := ""; sender := Some alice; signedData := "";
     totalFrameCount := 0; unsignedData := None |}.

End Env.

(** ** Notions used to state the properties *)

(** The test of the completion branch of [setPartData], on the state at
    entry. *)
Definition completes (st : ScannerState) : bool :=
  let n := Z.of_nat (size (multipartData st)) in
  (0 <? n) && (0 <? totalFrameCount st) && (n =? totalFrameCount st)
  && negb (multipartComplete st).

(** What the resolver computes turn by turn, in the order of the table:
    the address encoded again under the prefix of the network, or the
    exception of the codec. *)
Definition candidates `{Ext : Externals} (address : string) : list (Res string) :=
  (fun e => let! key := decodeAddress address in encodeAddress key (sPrefix e.2))
    <$> SUBSTRATE_NETWORK_LIST.

(** Every turn before turn [i] has given an address, and the account
    store knows none of them. *)
Definition missedBefore (accountsStore : AccountsStore) (cands : list (Res string))
    (i : nat) : Prop :=
  ∀ j, (j < i)%nat →
       ∃ c, cands !! j = Some (Ok c) ∧ getAccountByAddress accountsStore c = None.

(** The shape of the assembly fields that every scan session keeps: the
    frame store holds at most [totalFrameCount] payloads, a session marked
    complete holds exactly that many, and [missedFrames] is a list of
    distinct frame indices below [totalFrameCount]. *)
Definition assemblyInvariant (st : ScannerState) : Prop :=
  Z.of_nat (size (multipartData st)) ≤ Z.max 0 (totalFrameCount st)
  ∧ (multipartComplete st = true →
     0 < totalFrameCount st
     ∧ Z.of_nat (size (multipartData st)) = totalFrameCount st)
  ∧ NoDup (missedFrames st)
  ∧ ∀ k, k ∈ missedFrames st → 0 ≤ k < totalFrameCount st.

(** The payloads of a list of frames, stored one after the other. *)
Definition storeFrames (frames : list (Z * Z * string)) (multipartData : gmap Z (list Z))
    : gmap Z (list Z) :=
  foldl (fun m f => <[f.1.1 := partDataAsBytes f.2]> m) multipartData frames.

(** ** The other methods of the store *)

(** The fields of the state that [ScannerState] above leaves out, with
    their values in [DEFAULT_STATE]; the state of the store is the pair of
    the two records. *)
Inductive RequestType : Type := TRANSACTION | MESSAGE.

(** The fields that the store reads of a decoded Ethereum transaction. *)
Record EthereumTx : Type := {
  ethereumChainId : string;
  action_ : string
}.

(** The [tx] field: the empty string, a decoded Ethereum transaction, or
    the data of a Substrate request. *)
Inductive TxValue : Type :=
| TxEmpty
| TxEthereum (t : EthereumTx)
| TxData (d : JsData).

Record RequestState : Type := {
  isOversized : bool;
  message : option JsData;
  recipient : option Account;
  tx : TxValue;
  txRequest : option SignRequest;
  type : option RequestType
}.

Definition DEFAULT_REQUEST_STATE : RequestState :=
  {| isOversized := false; message := None; recipient := None; tx := TxEmpty;
     txRequest := None; type := None |}.

Definition StoreState : Type := ScannerState * RequestState.

(** The account store with its second lookup, by address and network. *)
Record AccountsStoreById : Type := {
  byAddress : AccountsStore;
  getById : string → string → option Account
}.

(** The functions that the other methods import. [genesisHashHex] stands
    for [payload.genesisHash.toHex()], [placeholderAccount] for
    [emptyAccount(emptyAccount(address, networkKey))], [derivationPath]
    for the [path] field of an account. *)
Class RequestExternals : Type := {
  ethSign : JsData → Res string;
  keccak : string → Res string;
  transaction : string → Res EthereumTx;
  genesisHashHex : GenericExtrinsicPayload → string;
  placeholderAccount : string → string → Account;
  decryptData : string → string → Res string;
  constructSURI : string → string → string → Res string;
  derivationPath : Account → string
}.

Definition set_message_request (d : JsData) (h : bool) (a : Account)
    (s : ScannerState) : ScannerState :=
  {| busy := busy s; completedFramesCount := completedFramesCount s;
     dataToSign := d; isHash := h; latestFrame := latestFrame s;
     missedFrames := missedFrames s; multipartComplete := multipartComplete s;
     multipartData := multipartData s; prehash := prehash s;
     scanErrorMsg := scanErrorMsg s; sender := Some a; signedData := signedData s;
     totalFrameCount := totalFrameCount s; unsignedData := unsignedData s |}.

Definition set_transaction_request (d : JsData) (a : Account)
    (s : ScannerState) : ScannerState :=
  {| busy := busy s; completedFramesCount := completedFramesCount s;
     dataToSign := d; isHash := isHash s; latestFrame := latestFrame s;
     missedFrames := missedFrames s; multipartComplete := multipartComplete s;
     multipartData := multipartData s; prehash := prehash s;
     scanErrorMsg := scanErrorMsg s; sender := Some a; signedData := signedData s;
     totalFrameCount := totalFrameCount s; unsignedData := unsignedData s |}.

Section Requests.

Context `{Ext : Externals} `{Req : RequestExternals}.

(** [crypto === 'sr25519' || crypto === 'ed25519'] *)
Definition isSubstrateCrypto (crypto : option string) : bool :=
  match crypto with
  | Some c => String.eqb c "sr25519" || String.eqb c "ed25519"
  | None => false
  end.

Definition setDataToSign (signRequest : SignRequest) (accountsStore : AccountsStoreById)
    (st : StoreState) : StoreState * Res bool :=
  let st1 : StoreState := (setBusy st.1, st.2) in
  let address := account (reqData signRequest) in
  let crypto := crypto (reqData signRequest) in
  let message := data (reqData signRequest) in
  let isHash := reqIsHash signRequest in
  let isOversized := oversized signRequest in
  match (if isSubstrateCrypto crypto then Ok message
         else let! signed := ethSign message in Ok (DString signed)) with
  | Throw e => (st1, Throw e)
  | Ok dataToSign =>
      match getAccountByAddress (byAddress accountsStore) address with
      | None => (st1, Throw (noPrivateKeyMsg address))
      | Some sender =>
          ((set_message_request dataToSign isHash sender st1.1,
            {| isOversized := isOversized; message := Some message;
               recipient := recipient st1.2; tx := tx st1.2;
               txRequest := txRequest st1.2; type := Some MESSAGE |}),
           Ok true)
      end
  end.

(** A string as a condition: [undefined] and the empty string are falsy. *)
Definition nonEmpty (s : string) : bool := negb (String.eqb s "").

Definition noPrivateKeyOnChainMsg (address networkTitle : string) : string :=
  "No private key found for account " +:+ address
  +:+ " found in your signer key storage for the " +:+ networkTitle +:+ " chain.".

(** [setTXRequest].  The key under which it reads [NETWORK_LIST] is the
    chain id of the decoded transaction or the genesis hash of the payload
    in hexadecimal: a network key, see [NETWORK_LIST]. *)
Definition setTXRequest (txRequest : SignRequest) (accountsStore : AccountsStoreById)
    (st : StoreState) : StoreState * Res bool :=
  let st1 : StoreState := (setBusy st.1, st.2) in
  let isOversized := oversized txRequest in
  let rlp := default "" (rlp (reqData txRequest)) in
  let isEthereum := nonEmpty rlp in
  let fail e := (st1, Throw e) in
  if isEthereum && negb (nonEmpty (account (reqData txRequest))) then
    fail "Scanned QR contains no valid transaction"
  else
    match (if isEthereum then let! t := transaction rlp in Ok (TxEthereum t)
           else Ok (TxData (data (reqData txRequest)))) with
    | Throw e => fail e
    | Ok tx =>
        match (match tx with
               | TxEthereum t => Ok (ethereumChainId t)
               | TxData (DPayload p) => Ok (genesisHashHex p)
               | _ => Throw "TypeError"
               end) with
        | Throw e => fail e
        | Ok networkKey =>
            let sender := getById accountsStore (account (reqData txRequest)) networkKey in
            match NETWORK_LIST networkKey with
            | None => fail "TypeError"
            | Some params =>
                match sender with
                | None =>
                    fail (noPrivateKeyOnChainMsg (account (reqData txRequest))
                            (title params))
                | Some sender =>
                    let recipientAddress :=
                      match tx with
                      | TxEthereum t => action_ t
                      | _ => account (reqData txRequest)
                      end in
                    let recipient :=
                      match getById accountsStore recipientAddress networkKey with
                      | Some a => a
                      | None => placeholderAccount recipientAddress networkKey
                      end in
                    match (if isEthereum then let! h := keccak rlp in Ok (DString h)
                           else Ok (data (reqData txRequest))) with
                    | Throw e => fail e
                    | Ok dataToSign =>
                        ((set_transaction_request dataToSign sender st1.1,
                          {| isOversized := isOversized; message := message st1.2;
                             recipient := Some recipient; tx := tx;
                             txRequest := Some txRequest;
                             type := Some TRANSACTION |}),
                         Ok true)
                    end
                end
            end
        end
    end.

Definition setData (accountsStore : AccountsStoreById) (st : StoreState)
    : StoreState * Res bool :=
  match unsignedData st.1 with
  | None => (st, Throw "TypeError")
  | Some unsigned =>
      if String.eqb (action unsigned) "signTransaction" then
        setTXRequest unsigned accountsStore st
      else if String.eqb (action unsigned) "signData" then
        setDataToSign unsigned accountsStore st
      else
        (st, Throw "Scanned QR should contain either transaction or a message to sign")
  end.

Definition signDataWithSeed (seed : string) (protocol : NetworkProtocol)
    (st : ScannerState) : SignOutcome :=
  if protocol_eqb protocol SUBSTRATE then
    match sender st with
    | None => {| after := st; completion := Throw "TypeError"; calls := [] |}
    | Some sender =>
        match constructSURI (derivationPath sender) "" seed with
        | Throw e => {| after := st; completion := Throw e; calls := [] |}
        | Ok suri => signDataWithSuri suri st
        end
    end
  else signDataWithSuri seed st.

Definition signDataLegacy (pin : string) (st : ScannerState) : SignOutcome :=
  match sender st with
  | None => {| after := st; completion := Throw "TypeError"; calls := [] |}
  | Some sender =>
      match decryptData (encryptedSeed sender) pin with
      | Throw e => {| after := st; completion := Throw e; calls := [] |}
      | Ok suri => signDataWithSuri suri st
      end
  end.

(** [clearMultipartProgress]: the assembly fields and [unsignedData] go
    back to their default values. *)
Definition clearMultipartProgress (s : ScannerState) : ScannerState :=
  {| busy := busy s; completedFramesCount := completedFramesCount DEFAULT_STATE;
     dataToSign := dataToSign s; isHash := isHash s;
     latestFrame := latestFrame DEFAULT_STATE;
     missedFrames := missedFrames DEFAULT_STATE;
     multipartComplete := multipartComplete DEFAULT_STATE;
     multipartData := ∅; prehash := prehash s;
     scanErrorMsg := scanErrorMsg s; sender := sender s; signedData := signedData s;
     totalFrameCount := totalFrameCount DEFAULT_STATE;
     unsignedData := unsignedData DEFAULT_STATE |}.

(** [cleanup]: every field takes its default value, then
    [clearMultipartProgress] runs. *)
Definition cleanup (st : StoreState) : StoreState :=
  (clearMultipartProgress DEFAULT_STATE, DEFAULT_REQUEST_STATE).

End Requests.

(** ** Notions used to state the further properties *)

(** What a signing method may do to the state [st]: complete after one
    successful backend call, having written [signedData] and nothing else,
    or leave the state as it was. *)
Definition writesSignatureOnly `{Ext : Externals} (st : ScannerState)
    (r : SignOutcome) : Prop :=
  (completion r = Ok None
   ∧ ∃ signature call, calls r = [call] ∧ native call = Ok signature
                       ∧ after r = set_signedData (signedData (after r)) st)
  ∨ (completion r ≠ Ok None ∧ after r = st ∧ (length (calls r) ≤ 1)%nat).

(** The assembly fields of a state. *)
Definition assemblyFields (st : ScannerState)
    : Z * option Z * list Z * gmap Z (list Z) * bool :=
  (totalFrameCount st, latestFrame st, missedFrames st, multipartData st,
   multipartComplete st).

(** ** Users of the network table *)

(** [SUBSTRATE_NETWORK_LIST[key]] *)
Definition substrateNetwork (key : string) : option SubstrateNetworkParams :=
  snd <$> List.find (fun e => String.eqb e.1 key) SUBSTRATE_NETWORK_LIST.

Module PayloadDetailsCard.

Inductive Metadata : Type := kusamaMetadata | centrifugeAmberMetadata | substrateDevMetadata.

(** [a === b || c] for numbers, as a condition: the value is [true] when
    the comparison holds and the number [c] otherwise, which is truthy
    unless it is 0. *)
Definition equalOr (a b c : Z) : bool := (a =? b) || negb (c =? 0).

(** The choice of metadata in the constructor; [None] leaves [metadata]
    undefined.  A network missing from the table would be a [TypeError]. *)
Definition chooseMetadata (prefix : Z) (dev : bool) : Res (option Metadata) :=
  match substrateNetwork KUSAMA, substrateNetwork KUSAMA_DEV,
        substrateNetwork SUBSTRATE_DEV with
  | Some kusama, Some kusamaDev, Some substrateDev =>
      let isKusama := equalOr prefix (sPrefix kusama) (sPrefix kusamaDev) in
      let isSubstrateDev := prefix =? sPrefix substrateDev in
      if isKusama then Ok (Some kusamaMetadata)
      else if isKusama then Ok (Some centrifugeAmberMetadata)
      else if dev && isSubstrateDev then Ok (Some substrateDevMetadata)
      else Ok None
  | _, _, _ => Throw "TypeError"
  end.

(** [fallback: !metadata] *)
Definition fallback (prefix : Z) (dev : bool) : Res bool :=
  let! metadata := chooseMetadata prefix dev in
  Ok (match metadata with Some _ => false | None => true end).

End PayloadDetailsCard.

Module Identities.

(** [s.split(sep)] for a separator of one character. *)
Fixpoint split (sep : ascii) (s : string) : list string :=
  match s with
  | EmptyString => [EmptyString]
  | String c s' =>
      if Ascii.eqb c sep then EmptyString :: split sep s'
      else match split sep s' with
           | piece :: rest => String c piece :: rest
           | [] => [String c EmptyString]
           end
  end.

(** [s.indexOf(needle)]; [None] is [-1]. *)
Fixpoint indexOf (needle s : string) : option nat :=
  if String.prefix needle s then Some 0%nat
  else match s with
       | EmptyString => None
       | String _ s' => S <$> indexOf needle s'
       end.

(** [s.slice(2)] *)
Definition slice2 (s : string) : string :=
  match s with
  | String _ (String _ s') => s'
  | _ => EmptyString
  end.

(** Whether the character [c] occurs in [s]. *)
Fixpoint occurs (c : ascii) (s : string) : bool :=
  match s with
  | EmptyString => false
  | String c' s' => Ascii.eqb c' c || occurs c s'
  end.

Definition isEthereumAccountId (v : string) : bool :=
  match indexOf "ethereum:" v with
  | Some O => true
  | _ => false
  end.

(** Reading [split] of [undefined], when the id has no colon, is a
    [TypeError]. *)
Definition extractAddressFromAccountId (id : string) : Res string :=
  match split ":" id !! 1%nat with
  | None => Throw "TypeError"
  | Some withoutNetwork =>
      let address := default EmptyString (head (split "@" withoutNetwork)) in
      match indexOf "0x" address with
      | Some _ => Ok (slice2 address)
      | None => Ok address
      end
  end.

(** The fields that the path helpers read of the [AccountMeta] of a path. *)
Record AccountMeta : Type := {
  metaAddress : string;
  metaName : string;
  networkPathId : option string
}.

(** [identity.meta], a [Map] from paths to [AccountMeta], is looked up with
    [get]; a path without entry gives the empty string. *)
Definition getAddressWithPath (path : string) (meta : list (string * AccountMeta))
    : Res string :=
  match snd <$> List.find (fun e => String.eqb e.1 path) meta with
  | None => Ok EmptyString
  | Some pathMeta =>
      let address := metaAddress pathMeta in
      if isEthereumAccountId address then extractAddressFromAccountId address
      else Ok address
  end.

(** A field of an identity: a string, a [Map] with its entries in insertion
    order, or an array of [[key, value]] pairs. *)
Inductive Field (V : Type) : Type :=
| Plain (s : string)
| MapField (entries : list (string * V))
| ArrayField (entries : list (string * V)).
Arguments Plain {V} s.
Arguments MapField {V} entries.
Arguments ArrayField {V} entries.

(** [obj[key] = v] on an object (or [map.set(key, v)] on a [Map]) whose
    keys are kept in insertion order. *)
Fixpoint assign {A} (key : string) (v : A) (obj : list (string * A)) : list (string * A) :=
  match obj with
  | [] => [(key, v)]
  | (k, w) :: rest =>
      if String.eqb k key then (k, v) :: rest else (k, w) :: assign key v rest
  end.

(** [new Map(entries)] *)
Definition newMap {V} (entries : list (string * V)) : list (string * V) :=
  foldl (fun m e => assign e.1 e.2 m) [] entries.

Definition serializeIdentity {V} (identity : list (string * Field V))
    : list (string * Field V) :=
  foldl (fun newIdentity entry =>
           match entry.2 with
           | MapField entries => assign entry.1 (ArrayField entries) newIdentity
           | value => assign entry.1 value newIdentity
           end) [] identity.

Definition deserializeIdentity {V} (identityJSON : list (string * Field V))
    : list (string * Field V) :=
  foldl (fun newIdentity entry =>
           match entry.2 with
           | ArrayField entries => assign entry.1 (MapField (newMap entries)) newIdentity
           | value => assign entry.1 value newIdentity
           end) [] identityJSON.

Definition deepCopyIdentity {V} (identity : list (string * Field V))
    : list (string * Field V) :=
  deserializeIdentity (serializeIdentity identity).

(** The keys and path ids of [NETWORK_LIST] in the order of [Object.keys]:
    the integer keys of the Ethereum networks in ascending order, without
    a path id, then the Substrate keys and the unknown network in insertion
    order. *)
Definition networkPathIds : list (string * option string) :=
  ((fun key => (key, None)) <$> ["1"; "3"; "5"; "42"; "61"])
  ++ ((fun e : string * SubstrateNetworkParams => (e.1, Some (sPathId e.2)))
        <$> SUBSTRATE_NETWORK_LIST)
  ++ [("unknown", Some "")].

Definition getNetworkKeyByPathId (pathId : string) : string :=
  match list_find (fun e : string * option string => e.2 = Some pathId) networkPathIds with
  | Some (networkKeyIndex, _) =>
      default "unknown" (fst <$> networkPathIds !! networkKeyIndex)
  | None => "unknown"
  end.

End Identities.

(** ** A concrete environment for the other methods

    The transaction decoder reads the chain id off the first character of
    the raw transaction, the genesis hash of a payload is the text of its
    bare encoding, and decryption accepts one pin. *)

Module RequestEnv.

Definition eve : Account :=
  {| address := "eve"; networkKey := "1"; pinKey := "pin"; encryptedSeed := "seed" |}.

(** An account on Rinkeby, whose key is declared but has no entry in the
    network table. *)
Definition rinkeby : Account :=
  {| address := "ron"; networkKey := "4"; pinKey := "pin"; encryptedSeed := "seed" |}.

Definition accounts : AccountsStoreById :=
  {| byAddress := Env.accounts;
     getById := fun a k =>
       if String.eqb a (address Env.alice) && String.eqb k SUBSTRATE_DEV
       then Some Env.alice
       else if String.eqb a "eve" && String.eqb k "1" then Some eve
       else if String.eqb a "ron" && String.eqb k "4" then Some rinkeby
       else None |}.

Definition externals : RequestExternals :=
  {| ethSign := fun _ => Ok "e7h";
     keccak := fun raw => Ok ("h:" +:+ raw);
     transaction := fun raw =>
       Ok {| ethereumChainId := String.substring 0 1 raw; action_ := "bob" |};
     genesisHashHex := fun p => Env.text (toU8a p true);
     placeholderAccount := fun a k =>
       {| address := a; networkKey := k; pinKey := ""; encryptedSeed := "" |};
     decryptData := fun seed pin =>
       if String.eqb pin "1234" then Ok "phrase" else Throw "wrong pin";
     constructSURI := fun path password phrase => Ok (phrase +:+ path);
     derivationPath := fun _ => "//kusama" |}.

(** A Substrate transaction request of [alice] on the development chain. *)
Definition transfer : SignRequest :=
  {| action := "signTransaction";
     reqData := {| account := address Env.alice; crypto := Some "sr25519";
                   data := DPayload {| toU8a := fun _ => Env.chars SUBSTRATE_DEV |};
                   rlp := None |};
     reqIsHash := false; oversized := false; preHash := None |}.


Definition state (st : ScannerState) : StoreState := (st, DEFAULT_REQUEST_STATE).

End RequestEnv.

(** * Properties *)

(** ** Frame assembly *)

Section Assembly.

Context `{Ext : Externals}.

Implicit Types (st : ScannerState) (accountsStore : AccountsStore).

(** An element of a typed array is never identical to an array. *)
Lemma invalidPartData_false bytes ref0 ref1 : invalidPartData bytes ref0 ref1 = false.
Proof.
  unfold invalidPartData, u8a_get.
  destruct (bytes !! 0%nat); reflexivity.
Qed.

(** [setRequest] leaves the assembly fields alone. *)
Lemma setRequest_assembly parsedData accountsStore st :
  let st' := (setRequest parsedData accountsStore st).1 in
  multipartComplete st' = multipartComplete st
  ∧ multipartData st' = multipartData st
  ∧ missedFrames st' = missedFrames st
  ∧ latestFrame st' = latestFrame st
  ∧ totalFrameCount st' = totalFrameCount st.
Proof.
  unfold setRequest.
  destruct (getAccountByAddress _ _); [done|].
  destruct (findOnNetworks _ _ _) as [[found|]|e]; done.
Qed.

Lemma setParsedDataComplete_assembly blob accountsStore st :
  let st' := (setParsedDataComplete blob accountsStore st).1 in
  multipartComplete st' = multipartComplete st
  ∧ multipartData st' = multipartData st
  ∧ missedFrames st' = missedFrames st
  ∧ latestFrame st' = latestFrame st
  ∧ totalFrameCount st' = totalFrameCount st.
Proof.
  unfold setParsedDataComplete.
  destruct (constructDataFromBytes blob true) as [[? ? ?|parsedData]|e]; simpl; try done.
  apply setRequest_assembly.
Qed.

(** [setPartData] always returns: its [throw] is never reached. *)
Lemma setPartData_returns frame frameCount partData accountsStore st :
  (setPartData frame frameCount partData accountsStore st).2 = Ok ().
Proof.
  unfold setPartData. rewrite invalidPartData_false. reflexivity.
Qed.


Lemma completes_spec st :
  completes st = true
  ↔ 0 < Z.of_nat (size (multipartData st))
    ∧ Z.of_nat (size (multipartData st)) = totalFrameCount st
    ∧ multipartComplete st = false.
Proof.
  unfold completes.
  rewrite !andb_true_iff, !Z.ltb_lt, Z.eqb_eq, negb_true_iff. intuition lia.
Qed.

Lemma setPartData_completing frame frameCount partData accountsStore st :
  completes st = true →
  (setPartData frame frameCount partData accountsStore st).1
  = set_completedFramesCount (Z.of_nat (size (multipartData st)))
      (setParsedData
         (completionBlob (multipartData st) (totalFrameCount st) frame)
         accountsStore true (set_multipartComplete true st)).1.
Proof.
  intros Hc. pose proof Hc as Hc'. apply completes_spec in Hc' as (Hn & Ht & _).
  unfold setPartData. rewrite invalidPartData_false.
  fold (completes st). rewrite Hc. 
  destruct (totalFrameCount st =? 0) eqn:E; [apply Z.eqb_eq in E; lia|].
  reflexivity.
Qed.

Lemma setPartData_not_completing frame frameCount partData accountsStore st :
  completes st = false →
  multipartComplete (setPartData frame frameCount partData accountsStore st).1
  = multipartComplete st.
Proof.
  intros Hc. unfold setPartData. rewrite invalidPartData_false.
  fold (completes st). rewrite Hc.
  destruct (totalFrameCount st =? 0), (_ <? _); reflexivity.
Qed.

(** [Object.values] follows the keys in ascending order. *)
Lemma objectKeys_sorted {A} (o : gmap Z A) : StronglySorted Z.lt (objectKeys o).
Proof.
  unfold objectKeys.
  assert (Hs : StronglySorted Z.le (merge_sort Z.le (elements (dom o)))).
  { apply StronglySorted_merge_sort; [intros x y z; lia | intros x y; lia]. }
  assert (Hd : NoDup (merge_sort Z.le (elements (dom o)))).
  { rewrite merge_sort_Permutation. apply NoDup_elements. }
  induction Hs as [|x l Hl IH Hall]; [constructor|].
  apply NoDup_cons in Hd as [Hx Hd].
  constructor; [by apply IH|].
  apply Forall_forall. intros y Hy.
  rewrite Forall_forall in Hall. specialize (Hall y Hy).
  assert (x ≠ y) by (intros ->; done). lia.
Qed.

Lemma elem_of_objectKeys {A} (o : gmap Z A) k : k ∈ objectKeys o ↔ is_Some (o !! k).
Proof.
  unfold objectKeys. rewrite merge_sort_Permutation, elem_of_elements.
  apply elem_of_dom.
Qed.

Lemma objectValues_keys {A} (o : gmap Z A) :
  Forall2 (fun k v => o !! k = Some v) (objectKeys o) (objectValues o).
Proof.
  unfold objectValues.
  assert (H : Forall (fun k => is_Some (o !! k)) (objectKeys o)).
  { apply Forall_forall. intros k. apply elem_of_objectKeys. }
  induction H as [|k l [v Hv] _ IH]; simpl; [constructor|].
  rewrite Hv. simpl. by constructor.
Qed.


(** C3, as [setPartData] implements it: the completion transition
    ([multipartComplete] goes from false to true) fires on a submission
    exactly when, at entry, the number of stored payloads is not zero,
    equals [totalFrameCount], and the session is not marked complete.  The
    state is then the one that [setParsedData] leaves, called with the
    complete flag on the blob made of the header (marker,
    [totalFrameCount], submitted frame index) followed by the payloads in
    ascending key order, with [multipartComplete] set. *)
Theorem completion_fires_when_full frame frameCount partData accountsStore st :
  let m := multipartData st in
  let n := Z.of_nat (size m) in
  let total := totalFrameCount st in
  let r := (setPartData frame frameCount partData accountsStore st).1 in
  ((multipartComplete st = false ∧ multipartComplete r = true)
   ↔ (0 < n ∧ n = total ∧ multipartComplete st = false))
  ∧ (0 < n → n = total → multipartComplete st = false →
     r = set_completedFramesCount n
           (setParsedData (completionBlob m total frame) accountsStore true
              (set_multipartComplete true st)).1
     ∧ completionBlob m total frame
       = 0 :: encodeNumber total ++ encodeNumber frame ++ List.concat (objectValues m)
     ∧ StronglySorted Z.lt (objectKeys m)
     ∧ (∀ k, k ∈ objectKeys m ↔ is_Some (m !! k))
     ∧ Forall2 (fun k v => m !! k = Some v) (objectKeys m) (objectValues m)).
Proof.
  intros m n total r. subst m n total. split.
  - rewrite <- completes_spec. split.
    + intros [Hf Ht]. destruct (completes st) eqn:Hc; [done|].
      subst r. rewrite setPartData_not_completing in Ht by done. congruence.
    + intros Hc. pose proof Hc as Hc'. apply completes_spec in Hc' as (_ & _ & Hf).
      split; [done|]. subst r.
      rewrite setPartData_completing by done. simpl.
      by destruct (setParsedDataComplete_assembly
                     (completionBlob (multipartData st) (totalFrameCount st) frame)
                     accountsStore (set_multipartComplete true st)) as (-> & _).
  - intros Hn Ht Hf.
    assert (Hc : completes st = true) by (apply completes_spec; done).
    split; [by apply setPartData_completing|].
    split.
    { unfold completionBlob, u8aConcat, MULTIPART, encodeNumber. simpl.
      by rewrite app_nil_r. }
    split; [apply objectKeys_sorted|].
    split; [apply elem_of_objectKeys|apply objectValues_keys].
Qed.

Lemma elem_of_setFrom_acc (l acc : list Z) x :
  x ∈ foldl (fun acc x => if includes x acc then acc else acc ++ [x]) acc l
  ↔ x ∈ acc ∨ x ∈ l.
Proof.
  revert acc. induction l as [|y l IH]; intros acc; simpl.
  - rewrite elem_of_nil. tauto.
  - rewrite IH, elem_of_cons. unfold includes.
    case_bool_decide as Hy.
    + split; [tauto|]. intros [?|[->|?]]; tauto.
    + rewrite elem_of_app, list_elem_of_singleton. tauto.
Qed.

Lemma elem_of_setFrom (l : list Z) x : x ∈ setFrom l ↔ x ∈ l.
Proof.
  unfold setFrom. rewrite elem_of_setFrom_acc, elem_of_nil. tauto.
Qed.

(** What the missed-frame rule records when it applies: the [d] indices
    that start at [latestFrame] itself. *)
Lemma nextMissedFrames_recorded frame total l missed k :
  let d := numbers_mod (frame - l) total - 1 in
  l ≠ 0 → 1 ≤ d → frame ∉ missed →
  k ∈ nextMissedFrames frame total (Some l) missed
  ↔ k ∈ missed ∨ ∃ i, 0 ≤ i < d ∧ k = (l + i) `mod` total.
Proof.
  intros d Hl Hd Hf. unfold nextMissedFrames, truthy, includes. simpl.
  fold d.
  destruct (Z.eqb_spec l 0) as [|_]; [done|].
  destruct (Z.leb_spec 1 d) as [_|]; [|lia].
  rewrite bool_decide_eq_false_2 by done. simpl.
  rewrite elem_of_setFrom, elem_of_app, list_elem_of_fmap.
  unfold numbers_mod.
  split; (intros [?|(i & Hi1 & Hi2)]; [by left|right]).
  - apply elem_of_seqZ in Hi2. exists i. split; [lia|]. rewrite Hi1. f_equal. lia.
  - exists i. split; [rewrite Hi2; f_equal; lia|]. apply elem_of_seqZ. lia.
Qed.



Lemma NoDup_setFrom_acc (l acc : list Z) :
  NoDup acc →
  NoDup (foldl (fun acc x => if includes x acc then acc else acc ++ [x]) acc l).
Proof.
  revert acc. induction l as [|y l IH]; intros acc Hacc; simpl; [done|].
  apply IH. unfold includes. case_bool_decide as Hy; [done|].
  apply NoDup_app. split; [done|]. split; [|apply NoDup_singleton].
  intros x Hx ->%list_elem_of_singleton. done.
Qed.

Lemma NoDup_setFrom (l : list Z) : NoDup (setFrom l).
Proof. apply NoDup_setFrom_acc, NoDup_nil_2. Qed.








(** C1 does not hold of [setPartData]: the reserved-byte test compares the
    first byte with a newly built array and is never true.  A frame 0 whose
    payload starts with 0x7B (or with 0x00) is accepted: the call returns
    normally, the first submission records [totalFrameCount], and the
    next one stores the payload and sets [latestFrame].  No call of
    [setPartData] ends in an exception. *)
Theorem reserved_first_byte_is_stored accountsStore :
  let submit partData st := setPartData 0 3 partData accountsStore st in
  let json := "7b2261223a317d" in
  let zero := "00c0ffee" in
  u8a_get (partDataAsBytes json) 0 = JNumber 123
  ∧ u8a_get (partDataAsBytes zero) 0 = JNumber 0
  ∧ (submit json DEFAULT_STATE).2 = Ok ()
  ∧ totalFrameCount (submit json DEFAULT_STATE).1 = 3
  ∧ (submit json (submit json DEFAULT_STATE).1).2 = Ok ()
  ∧ multipartData (submit json (submit json DEFAULT_STATE).1).1 !! 0
    = Some [123; 34; 97; 34; 58; 49; 125]
  ∧ latestFrame (submit json (submit json DEFAULT_STATE).1).1 = Some 0
  ∧ (submit zero (submit zero DEFAULT_STATE).1).2 = Ok ()
  ∧ multipartData (submit zero (submit zero DEFAULT_STATE).1).1 !! 0
    = Some [0; 192; 255; 238]
  ∧ ∀ frame frameCount partData st,
      (setPartData frame frameCount partData accountsStore st).2 = Ok ().
Proof.
  repeat (split; [vm_compute; reflexivity|]).
  intros. apply setPartData_returns.
Qed.

(** C2 does not hold of [setPartData]: with frames 0, 1, 3 of 5 the
    forward distance at frame 3 is 1 and the skipped index is 2, yet the
    index recorded is 1, the latest frame itself.  With frames 0, 2, 1 of 3
    nothing is recorded at frame 2 (no latest frame yet, or latest frame 0,
    which counts as none), and index 2 is recorded when frame 1 is
    filled. *)
Theorem skipped_frames_recorded_one_early accountsStore :
  let run frames := submitFrames frames accountsStore DEFAULT_STATE in
  let after13 := run [(0, 5, "aa"); (1, 5, "bb"); (3, 5, "dd")] in
  latestFrame (run [(0, 5, "aa"); (1, 5, "bb")]) = Some 1
  ∧ missedFrames (run [(0, 5, "aa"); (1, 5, "bb")]) = []
  ∧ (3 - 1 - 1) `mod` 5 = 1
  ∧ missedFrames after13 = [1]
  ∧ missedFrames (run [(0, 3, "aa"); (2, 3, "cc")]) = []
  ∧ missedFrames (run [(0, 3, "aa"); (2, 3, "cc"); (1, 3, "bb")]) = [2]
  ∧ latestFrame (run [(0, 3, "aa"); (0, 3, "aa")]) = Some 0
  ∧ missedFrames (run [(0, 3, "aa"); (0, 3, "aa"); (2, 3, "cc")]) = [].
Proof. vm_compute. repeat split. Qed.

(** C4 does not hold of [setPartData]: after frames 0, 1, 3 of 5,
    [missedFrames] contains 1, which is a key of [multipartData]. *)
Theorem missed_index_is_a_stored_frame accountsStore :
  let st := submitFrames [(0, 5, "aa"); (1, 5, "bb"); (3, 5, "dd")] accountsStore
              DEFAULT_STATE in
  1 ∈ missedFrames st ∧ multipartData st !! 1 = Some [187].
Proof.
  intros st. split.
  - replace (missedFrames st) with [1] by (vm_compute; reflexivity). set_solver.
  - vm_compute. reflexivity.
Qed.

End Assembly.

(** Against C3 as stated: frames 0, 1, 2 of 3 submitted in order do not
    complete the session on frame 2, from the initial state or with the
    frame count already recorded; and in the initial state the number of
    stored payloads equals [totalFrameCount] (both 0) without the
    transition firing. *)
Lemma frames_in_order_do_not_complete :
  let run frames :=
    submitFrames (Ext := Env.externals Env.signing) frames Env.accounts DEFAULT_STATE in
  multipartComplete (run [(0, 3, "aa"); (1, 3, "bb"); (2, 3, "cc")]) = false
  ∧ multipartComplete (run [(0, 3, "aa"); (0, 3, "aa"); (1, 3, "bb"); (2, 3, "cc")]) = false
  ∧ Z.of_nat (size (multipartData DEFAULT_STATE)) = totalFrameCount DEFAULT_STATE
  ∧ multipartComplete DEFAULT_STATE = false
  ∧ multipartComplete (run [(0, 3, "aa")]) = false.
Proof. vm_compute. repeat split. Qed.


(** ** Account resolution *)

Section Resolution.

Context `{Ext : Externals}.

Implicit Types (st : ScannerState) (accountsStore : AccountsStore).

(** The loop ends at the first turn at which the codec throws or the
    account store knows the address. *)
Lemma findOnNetworks_first networks accountsStore address :
  let cands :=
    (fun e : string * SubstrateNetworkParams =>
       let! key := decodeAddress address in encodeAddress key (sPrefix e.2))
      <$> networks in
  match findOnNetworks networks accountsStore address with
  | Ok (Some found) =>
      ∃ i c, cands !! i = Some (Ok c)
             ∧ getAccountByAddress accountsStore c = Some found
             ∧ missedBefore accountsStore cands i
  | Ok None =>
      ∀ x, x ∈ cands → ∃ c, x = Ok c ∧ getAccountByAddress accountsStore c = None
  | Throw e =>
      ∃ i, cands !! i = Some (Throw e) ∧ missedBefore accountsStore cands i
  end.
Proof.
  induction networks as [|[key params] rest IH]; simpl.
  - intros x Hx. by apply elem_of_nil in Hx.
  - destruct (decodeAddress address) as [k|e] eqn:Hk; simpl;
      [|exists 0%nat; split; [done|]; intros j Hj; lia].
    destruct (encodeAddress k (sPrefix params)) as [c|e] eqn:Hc; simpl;
      [|exists 0%nat; split; [done|]; intros j Hj; lia].
    destruct (getAccountByAddress accountsStore c) as [a|] eqn:Hg.
    + exists 0%nat, c. split; [done|]. split; [done|]. intros j Hj. lia.
    + simpl in IH.
      destruct (findOnNetworks rest accountsStore address) as [[found|]|e].
      * destruct IH as (i & c' & Hi & Hc' & Hbefore).
        exists (S i), c'. split; [done|]. split; [done|].
        intros [|j] Hj; simpl; [by exists c|]. apply Hbefore. lia.
      * intros x [->|Hx]%elem_of_cons; [by exists c|by apply IH].
      * destruct IH as (i & Hi & Hbefore).
        exists (S i). split; [done|].
        intros [|j] Hj; simpl; [by exists c|]. apply Hbefore. lia.
Qed.

(** At most one turn is the first at which something happens. *)
Lemma missedBefore_first accountsStore cands i j x y :
  missedBefore accountsStore cands i →
  missedBefore accountsStore cands j →
  cands !! i = Some x →
  cands !! j = Some y →
  (∀ c, x = Ok c → is_Some (getAccountByAddress accountsStore c)) →
  (∀ c, y = Ok c → is_Some (getAccountByAddress accountsStore c)) →
  i = j.
Proof.
  intros Hi Hj Hx Hy Hkx Hky.
  destruct (Nat.lt_trichotomy i j) as [Hlt|[Heq|Hgt]]; [|done|].
  - destruct (Hj i Hlt) as (c & Hc & Hnone). rewrite Hx in Hc. injection Hc as ->.
    destruct (Hkx c eq_refl) as [a Ha]. congruence.
  - destruct (Hi j Hgt) as (c & Hc & Hnone). rewrite Hy in Hc. injection Hc as ->.
    destruct (Hky c eq_refl) as [a Ha]. congruence.
Qed.

(** The three ways in which the loop can end. *)
Lemma findOnNetworks_cases accountsStore address :
  (∀ i c found,
     candidates address !! i = Some (Ok c) →
     getAccountByAddress accountsStore c = Some found →
     missedBefore accountsStore (candidates address) i →
     findOnNetworks SUBSTRATE_NETWORK_LIST accountsStore address = Ok (Some found))
  ∧ ((∀ x, x ∈ candidates address →
           ∃ c, x = Ok c ∧ getAccountByAddress accountsStore c = None) →
     findOnNetworks SUBSTRATE_NETWORK_LIST accountsStore address = Ok None)
  ∧ (∀ i e,
       candidates address !! i = Some (Throw e) →
       missedBefore accountsStore (candidates address) i →
       findOnNetworks SUBSTRATE_NETWORK_LIST accountsStore address = Throw e).
Proof.
  pose proof (findOnNetworks_first SUBSTRATE_NETWORK_LIST accountsStore address) as Hfind.
  cbv zeta in Hfind. fold (candidates address) in Hfind.
  destruct (findOnNetworks SUBSTRATE_NETWORK_LIST accountsStore address)
    as [[found'|]|e'].
  - destruct Hfind as (i' & c' & Hi' & Hc' & Hb').
    assert (Hk' : ∀ c, Ok c' = Ok c → is_Some (getAccountByAddress accountsStore c))
      by (intros c [= <-]; by eexists).
    split; [|split].
    + intros i c found Hi Hc Hb.
      assert (i = i') as ->.
      { eapply missedBefore_first; [exact Hb|exact Hb'|exact Hi|exact Hi'| |exact Hk'].
        intros ? [= <-]. by eexists. }
      congruence.
    + intros Hall. destruct (Hall (Ok c')) as (c & [= <-] & Hnone);
        [by eapply list_elem_of_lookup_2|congruence].
    + intros i e Hi Hb.
      assert (i = i') as ->.
      { eapply missedBefore_first; [exact Hb|exact Hb'|exact Hi|exact Hi'| |exact Hk'].
        intros ? [=]. }
      congruence.
  - split; [|split].
    + intros i c found Hi Hc _.
      destruct (Hfind (Ok c)) as (? & [= <-] & Hnone);
        [by eapply list_elem_of_lookup_2|congruence].
    + done.
    + intros i e Hi _.
      destruct (Hfind (Throw e)) as (? & [=] & _). by eapply list_elem_of_lookup_2.
  - destruct Hfind as (i' & Hi' & Hb').
    assert (Hk' : ∀ c, Throw e' = Ok c → is_Some (getAccountByAddress accountsStore c))
      by (intros c [=]).
    split; [|split].
    + intros i c found Hi Hc Hb.
      assert (i = i') as ->.
      { eapply missedBefore_first; [exact Hb|exact Hb'|exact Hi|exact Hi'| |exact Hk'].
        intros ? [= <-]. by eexists. }
      congruence.
    + intros Hall. destruct (Hall (Throw e')) as (c & [=] & _).
      by eapply list_elem_of_lookup_2.
    + intros i e Hi Hb.
      assert (i = i') as ->.
      { eapply missedBefore_first; [exact Hb|exact Hb'|exact Hi|exact Hi'| |exact Hk'].
        intros ? [=]. }
      congruence.
Qed.

Lemma setParsedData_request strippedData multipartComplete accountsStore st parsedData :
  constructDataFromBytes strippedData multipartComplete = Ok (Complete parsedData) →
  setParsedData strippedData accountsStore multipartComplete st
  = setRequest parsedData accountsStore st.
Proof.
  intros Hd. unfold setParsedData, setParsedDataComplete.
  destruct multipartComplete; by rewrite Hd.
Qed.


(** C10: [setParsedData] sets [prehash] to the decoded pre-hash payload
    when the address has an exact match and when every turn of the
    resolver gives an address that the store does not know, and on no
    other path.  When a re-encoded address is the first that the store
    knows, the state is the entry state with the unsigned request stored,
    and [prehash] is unchanged; when the codec throws first, the state is
    the entry state. *)
Theorem prehash_kept_on_fallback_match strippedData multipartComplete accountsStore st
    parsedData :
  constructDataFromBytes strippedData multipartComplete = Ok (Complete parsedData) →
  let addr := account (reqData parsedData) in
  let r := (setParsedData strippedData accountsStore multipartComplete st).1 in
  (is_Some (getAccountByAddress accountsStore addr) →
     prehash r = preHash parsedData ∧ unsignedData r = Some parsedData)
  ∧ (getAccountByAddress accountsStore addr = None →
     (∀ x, x ∈ candidates addr →
           ∃ c, x = Ok c ∧ getAccountByAddress accountsStore c = None) →
     prehash r = preHash parsedData)
  ∧ (getAccountByAddress accountsStore addr = None →
     ∀ i c found,
       candidates addr !! i = Some (Ok c) →
       getAccountByAddress accountsStore c = Some found →
       missedBefore accountsStore (candidates addr) i →
       r = set_unsignedData (withAccount parsedData (address found)) st
       ∧ prehash r = prehash st)
  ∧ (getAccountByAddress accountsStore addr = None →
     ∀ c found,
       Ok c ∈ candidates addr →
       getAccountByAddress accountsStore c = Some found →
       prehash r = prehash st)
  ∧ (getAccountByAddress accountsStore addr = None →
     ∀ i e,
       candidates addr !! i = Some (Throw e) →
       missedBefore accountsStore (candidates addr) i →
       r = st)
  ∧ (prehash r ≠ prehash st →
     is_Some (getAccountByAddress accountsStore addr)
     ∨ (getAccountByAddress accountsStore addr = None
        ∧ ∀ x, x ∈ candidates addr →
               ∃ c, x = Ok c ∧ getAccountByAddress accountsStore c = None)).
Proof.
  intros Hd addr r. subst r.
  rewrite (setParsedData_request _ _ _ _ _ Hd).
  unfold setRequest. fold addr.
  destruct (findOnNetworks_cases accountsStore addr) as (Hmatch & Hmiss & Hthrow).
  pose proof (findOnNetworks_first SUBSTRATE_NETWORK_LIST accountsStore addr) as Hfind.
  cbv zeta in Hfind. fold (candidates addr) in Hfind.
  split; [|split; [|split; [|split; [|split]]]].
  - intros [a Ha]. by rewrite Ha.
  - intros Hnone Hall. by rewrite Hnone, (Hmiss Hall).
  - intros Hnone i c found Hi Hc Hb. by rewrite Hnone, (Hmatch i c found Hi Hc Hb).
  - intros Hnone c found Hin Hc. rewrite Hnone.
    destruct (findOnNetworks SUBSTRATE_NETWORK_LIST accountsStore addr)
      as [[found'|]|e']; [done| |done].
    destruct (Hfind (Ok c) Hin) as (? & [= <-] & Hn). congruence.
  - intros Hnone i e Hi Hb. by rewrite Hnone, (Hthrow i e Hi Hb).
  - intros Hne.
    destruct (getAccountByAddress accountsStore addr) as [a|] eqn:Ha; [by left|].
    right. split; [done|].
    destruct (findOnNetworks SUBSTRATE_NETWORK_LIST accountsStore addr)
      as [[found'|]|e']; [done|exact Hfind|done].
Qed.

End Resolution.

(** ** Signing *)

Section Signing.

Context `{Ext : Externals}.

Implicit Types (st : ScannerState).

(** Case analysis on the result of the backend call under way. *)
Ltac backend_result signed e H :=
  match goal with
  | |- context [native ?c] => destruct (native c) as [signed|e] eqn:H
  end.

Lemma senderIsEthereum_other st signer params :
  sender st = Some signer →
  NETWORK_LIST (networkKey signer) = Some params →
  protocol params ≠ ETHEREUM →
  senderIsEthereum st = Ok (signer, false).
Proof.
  intros Hs Hn Hp. unfold senderIsEthereum. rewrite Hs, Hn.
  by destruct (protocol params).
Qed.

(** A signing method calls the backend once at most. *)
Lemma signDataBiometric_calls legacy st :
  (length (calls (signDataBiometric legacy st)) ≤ 1)%nat.
Proof.
  unfold signDataBiometric.
  destruct (senderIsEthereum st) as [[signer isEthereum]|]; simpl; [|lia].
  destruct (if isEthereum then _ else _); simpl; [|lia].
  destruct (let! _ := _ in _); simpl; lia.
Qed.

Lemma signDataWithSuri_calls suri st :
  (length (calls (signDataWithSuri suri st)) ≤ 1)%nat.
Proof.
  unfold signDataWithSuri.
  destruct (senderIsEthereum st) as [[signer [|]]|]; simpl; [| |lia].
  - destruct (native _); simpl; lia.
  - destruct (buildSignable _ _); simpl; [|lia].
    destruct (let! _ := _ in _); simpl; lia.
Qed.

(** C7: when the backend call of a signing attempt is rejected, the
    state is left as it was (so [signedData] stays unset and [busy] stays
    true), [signDataBiometric] returns [false] and [signDataWithSuri]
    rejects with the backend's error; a signing method calls the backend
    once at most. *)
Theorem backend_failure_is_reported st legacy suri call e :
  native call = Throw e →
  (calls (signDataBiometric legacy st) = [call] →
     after (signDataBiometric legacy st) = st
     ∧ completion (signDataBiometric legacy st) = Ok (Some false))
  ∧ (calls (signDataWithSuri suri st) = [call] →
     after (signDataWithSuri suri st) = st
     ∧ completion (signDataWithSuri suri st) = Throw e)
  ∧ (length (calls (signDataBiometric legacy st)) ≤ 1)%nat
  ∧ (length (calls (signDataWithSuri suri st)) ≤ 1)%nat.
Proof.
  intros Hfail. split; [|split; [|split]].
  - unfold signDataBiometric.
    destruct (senderIsEthereum st) as [[signer [|]]|]; simpl; [| |done].
    + backend_result signed e' Hn; simpl; intros [= <-]; [congruence|done].
    + destruct (buildSignable _ _) as [signable|]; simpl; [|done].
      backend_result signed e' Hn; simpl.
      * destruct (tagSignature signed); simpl; intros [= <-]; congruence.
      * done.
  - unfold signDataWithSuri.
    destruct (senderIsEthereum st) as [[signer [|]]|]; simpl; [| |done].
    + backend_result signed e' Hn; simpl; intros [= <-]; [congruence|].
      split; [done|congruence].
    + destruct (buildSignable _ _) as [signable|]; simpl; [|done].
      backend_result signed e' Hn; simpl.
      * destruct (tagSignature signed); simpl; intros [= <-]; congruence.
      * intros [= <-]. split; [done|congruence].
  - apply signDataBiometric_calls.
  - apply signDataWithSuri_calls.
Qed.



(** C6, as the signing methods implement it: for a sender that is not an
    Ethereum one the four tests are tried in order and the first that
    holds decides the signable; when none holds the signable is
    [undefined] and both signing methods go on to call the backend with
    it. *)
Theorem signable_first_match_or_undefined st signer params legacy suri :
  sender st = Some signer →
  NETWORK_LIST (networkKey signer) = Some params →
  protocol params ≠ ETHEREUM →
  let d := dataToSign st in
  let h := isHash st in
  (isPayload d = true →
     ∃ p, d = DPayload p ∧ buildSignable d h = Ok (DString (hexEncode (toU8a p true))))
  ∧ (isPayload d = false → h = true →
     buildSignable d h = (let! x := hexStripPrefix d in Ok (DString x)))
  ∧ (isPayload d = false → h = false → isU8a d = true →
     ∃ bytes, d = DU8a bytes
              ∧ buildSignable d h
                = (let! x := hexStripPrefix (DString ("0x" +:+ hexEncode bytes)) in
                   Ok (DString x)))
  ∧ (isPayload d = false → h = false → isU8a d = false → isAscii d = true →
     buildSignable d h
     = (let! a := asciiToHex d in let! x := hexStripPrefix (DString a) in Ok (DString x)))
  ∧ (isPayload d = false → h = false → isU8a d = false → isAscii d = false →
     buildSignable d h = Ok DUndefined
     ∧ calls (signDataWithSuri suri st) = [SubstrateSign suri DUndefined]
     ∧ calls (signDataBiometric legacy st)
       = [SecureSubstrateSign APP_ID (pinKey signer) DUndefined
            (encryptedSeed signer) legacy]).
Proof.
  intros Hs Hn Hp d h.
  assert (Hsub : senderIsEthereum st = Ok (signer, false))
    by by apply (senderIsEthereum_other _ _ params).
  split; [|split; [|split; [|split]]].
  - destruct d as [|s|bytes|p]; try done. intros _. by exists p.
  - intros Hd ->. by destruct d.
  - intros Hd -> Hu. destruct d as [|s|bytes|p]; try done. by exists bytes.
  - intros Hd -> Hu Ha. destruct d as [|s|bytes|p]; try done; simpl; by rewrite Ha.
  - intros Hd Hh Hu Ha.
    assert (Hb : buildSignable d h = Ok DUndefined).
    { rewrite Hh. destruct d as [|s|bytes|p]; try done; simpl; by rewrite Ha. }
    split; [done|]. split.
    + unfold signDataWithSuri. rewrite Hsub. fold d h. rewrite Hb. simpl.
      backend_result signed e' Hc; simpl; [|done]. by destruct (tagSignature signed).
    + unfold signDataBiometric. rewrite Hsub. fold d h. rewrite Hb. simpl.
      backend_result signed e' Hc; simpl; [|done]. by destruct (tagSignature signed).
Qed.

End Signing.

(** ** The hexadecimal codec of the concrete environment *)

Lemma hexDigit_hexChar d : 0 ≤ d < 16 → hexDigit (hexChar d) = Some d.
Proof.
  intros Hd. rewrite <- (Z2Nat.id d) by lia.
  assert (Hn : (Z.to_nat d < 16)%nat) by lia.
  generalize dependent (Z.to_nat d). clear Hd d. intros n Hn.
  do 16 (destruct n as [|n]; [reflexivity|]).
  lia.
Qed.

Lemma hexPairs_hexEncode bytes :
  Forall (fun b => 0 ≤ b < 256) bytes → Env.hexPairs (hexEncode bytes) = Ok bytes.
Proof.
  induction 1 as [|b bytes Hb _ IH]; [reflexivity|].
  cbn [hexEncode Env.hexPairs].
  rewrite !hexDigit_hexChar.
  - rewrite IH. simpl. f_equal. f_equal. symmetry. apply Z.div_mod. lia.
  - apply Z.mod_pos_bound. lia.
  - split; [apply Z.div_pos; lia|apply Z.div_lt_upper_bound; lia].
Qed.

(** Decoding the prefixed encoding of a byte array gives the array back. *)
Lemma hexToU8a_u8aToHex bytes :
  Forall (fun b => 0 ≤ b < 256) bytes →
  Env.hexToU8a (u8aToHex bytes true) = Ok bytes.
Proof.
  intros Hb. unfold u8aToHex. simpl. by apply hexPairs_hexEncode.
Qed.

(** ** The properties on the concrete environment *)


(** The completion transition on a session of three frames, all stored. *)
Lemma completion_fires_when_full_witness :
  let E := Env.externals Env.signing in
  let st :=
    submitFrames (Ext := E) [(0, 3, "aa"); (0, 3, "aa"); (1, 3, "bb"); (2, 3, "cc")]
      Env.accounts DEFAULT_STATE in
  let r := (setPartData (Ext := E) 0 3 "aa" Env.accounts st).1 in
  (0 < Z.of_nat (size (multipartData st))
   ∧ Z.of_nat (size (multipartData st)) = totalFrameCount st
   ∧ multipartComplete st = false)
  ∧ multipartComplete r = true
  ∧ r = set_completedFramesCount 3
          (setParsedData (Ext := E) [0; 0; 3; 0; 0; 170; 187; 204] Env.accounts true
             (set_multipartComplete true st)).1.
Proof.
  intros E st r.
  assert (H1 : 0 < Z.of_nat (size (multipartData st))) by (vm_compute; reflexivity).
  assert (H2 : Z.of_nat (size (multipartData st)) = totalFrameCount st)
    by (vm_compute; reflexivity).
  assert (H3 : multipartComplete st = false) by (vm_compute; reflexivity).
  destruct (completion_fires_when_full (Ext := E) 0 3 "aa" Env.accounts st)
    as [Hiff Hblob].
  split; [done|]. split.
  - apply Hiff. done.
  - exact (proj1 (Hblob H1 H2 H3)).
Defined.


(** Against C6 as stated: a text with a character above 127 matches none
    of the four tests, and [signDataWithSuri] signs all the same: the
    backend is called with [undefined] and the result is stored. *)
Lemma unmatched_data_is_signed_as_undefined :
  let E := Env.externals Env.signing in
  let st := Env.signingState (DString (String "233" EmptyString)) false in
  let r := signDataWithSuri (Ext := E) "suri" st in
  (isPayload (dataToSign st) = false ∧ isHash st = false
   ∧ isU8a (dataToSign st) = false ∧ isAscii (Externals := E) (dataToSign st) = false)
  ∧ calls r = [SubstrateSign "suri" DUndefined]
  ∧ completion r = Ok None
  ∧ signedData (after r) = "01c0de".
Proof. vm_compute. repeat split. Qed.

(** The chain of tests on a text that none of them accepts. *)
Lemma signable_first_match_or_undefined_witness :
  let E := Env.externals Env.signing in
  let st := Env.signingState (DString (String "233" EmptyString)) false in
  (sender st = Some Env.alice
   ∧ NETWORK_LIST (networkKey Env.alice)
     = Some {| title := "Substrate Development"; prefix := Some 42;
               protocol := SUBSTRATE |}
   ∧ SUBSTRATE ≠ ETHEREUM)
  ∧ buildSignable (Ext := E) (dataToSign st) (isHash st) = Ok DUndefined
  ∧ calls (signDataWithSuri (Ext := E) "suri" st) = [SubstrateSign "suri" DUndefined]
  ∧ calls (signDataBiometric (Ext := E) true st)
    = [SecureSubstrateSign "signer" "pin" DUndefined "seed" true].
Proof.
  intros E st.
  assert (H1 : sender st = Some Env.alice) by reflexivity.
  assert (H2 : NETWORK_LIST (networkKey Env.alice)
               = Some {| title := "Substrate Development"; prefix := Some 42;
                         protocol := SUBSTRATE |}) by (vm_compute; reflexivity).
  assert (H3 : SUBSTRATE ≠ ETHEREUM) by discriminate.
  split; [done|].
  exact (proj2 (proj2 (proj2 (proj2
           (signable_first_match_or_undefined (Ext := E) st Env.alice _ true "suri"
              H1 H2 H3))))
         eq_refl eq_refl eq_refl eq_refl).
Defined.

(** A biometric signing attempt with a backend that rejects. *)
Lemma backend_failure_is_reported_witness :
  let E := Env.externals Env.rejecting in
  let st := Env.signingState (DString "hello") false in
  let call := SecureSubstrateSign "signer" "pin" (DString "68656c6c6f") "seed" false in
  (native (Externals := E) call = Throw "rejected"
   ∧ calls (signDataBiometric (Ext := E) false st) = [call])
  ∧ after (signDataBiometric (Ext := E) false st) = st
  ∧ completion (signDataBiometric (Ext := E) false st) = Ok (Some false)
  ∧ signedData (after (signDataBiometric (Ext := E) false st)) = ""
  ∧ busy (after (signDataBiometric (Ext := E) false st)) = true.
Proof.
  intros E st call.
  assert (H1 : native (Externals := E) call = Throw "rejected") by reflexivity.
  assert (H2 : calls (signDataBiometric (Ext := E) false st) = [call])
    by (vm_compute; reflexivity).
  destruct (proj1 (backend_failure_is_reported (Ext := E) st false "suri" call
                     "rejected" H1) H2) as [Hafter Hdone].
  split; [done|]. split; [done|]. split; [done|].
  rewrite Hafter. split; reflexivity.
Defined.




(** [prehash] after the same address has been resolved by re-encoding. *)
Lemma prehash_kept_on_fallback_match_witness :
  let E := Env.externals Env.signing in
  let blob := [0; 0; 1; 0; 0; 48; 97; 108; 105; 99; 101] in
  let r := (setParsedData (Ext := E) blob Env.accounts false DEFAULT_STATE).1 in
  (constructDataFromBytes (Externals := E) blob false
     = Ok (Complete (Env.request "0alice"))
   ∧ getAccountByAddress Env.accounts "0alice" = None
   ∧ Ok "*alice" ∈ candidates (Ext := E) "0alice"
   ∧ getAccountByAddress Env.accounts "*alice" = Some Env.alice)
  ∧ preHash (Env.request "0alice") ≠ None
  ∧ prehash r = None.
Proof.
  intros E blob r.
  assert (H1 : constructDataFromBytes (Externals := E) blob false
               = Ok (Complete (Env.request "0alice"))) by reflexivity.
  assert (H2 : getAccountByAddress Env.accounts "0alice" = None) by reflexivity.
  assert (H3 : Ok "*alice" ∈ candidates (Ext := E) "0alice").
  { apply (list_elem_of_lookup_2 _ 3%nat). reflexivity. }
  assert (H4 : getAccountByAddress Env.accounts "*alice" = Some Env.alice)
    by reflexivity.
  split; [done|]. split; [discriminate|].
  exact (proj1 (proj2 (proj2 (proj2 (prehash_kept_on_fallback_match (Ext := E) blob
                                       false Env.accounts DEFAULT_STATE
                                       (Env.request "0alice") H1))))
           H2 "*alice" Env.alice H3 H4).
Defined.

(** * Further properties of the store *)

(** ** Invariants of a scan session *)

Section Session.

Context `{Ext : Externals}.

Implicit Types (st : ScannerState) (accountsStore : AccountsStore).

(** The assembly fields after one call, branch by branch. *)
Lemma setPartData_storing frame frameCount partData accountsStore st :
  completes st = false →
  Z.of_nat (size (multipartData st)) < totalFrameCount st →
  let r := (setPartData frame frameCount partData accountsStore st).1 in
  multipartData r = <[frame := partDataAsBytes partData]> (multipartData st)
  ∧ missedFrames r
    = nextMissedFrames frame (totalFrameCount st) (latestFrame st) (missedFrames st)
  ∧ latestFrame r = Some frame
  ∧ multipartComplete r = multipartComplete st
  ∧ totalFrameCount r = totalFrameCount st.
Proof.
  intros Hc Hlt. unfold setPartData. rewrite invalidPartData_false.
  fold (completes st). rewrite Hc.
  destruct (Z.ltb_spec (Z.of_nat (size (multipartData st))) (totalFrameCount st));
    [|lia].
  destruct (Z.eqb_spec (totalFrameCount st) 0); [lia|]. done.
Qed.

Lemma setPartData_idle frame frameCount partData accountsStore st :
  completes st = false →
  totalFrameCount st ≤ Z.of_nat (size (multipartData st)) →
  let r := (setPartData frame frameCount partData accountsStore st).1 in
  multipartData r = multipartData st
  ∧ missedFrames r = missedFrames st
  ∧ latestFrame r = latestFrame st
  ∧ multipartComplete r = multipartComplete st
  ∧ totalFrameCount r
    = (if totalFrameCount st =? 0 then frameCount else totalFrameCount st).
Proof.
  intros Hc Hge. unfold setPartData. rewrite invalidPartData_false.
  fold (completes st). rewrite Hc.
  destruct (Z.ltb_spec (Z.of_nat (size (multipartData st))) (totalFrameCount st));
    [lia|].
  by destruct (totalFrameCount st =? 0).
Qed.

Lemma setPartData_completed frame frameCount partData accountsStore st :
  completes st = true →
  let r := (setPartData frame frameCount partData accountsStore st).1 in
  multipartData r = multipartData st
  ∧ missedFrames r = missedFrames st
  ∧ latestFrame r = latestFrame st
  ∧ multipartComplete r = true
  ∧ totalFrameCount r = totalFrameCount st.
Proof.
  intros Hc. cbv zeta. rewrite setPartData_completing by done. simpl.
  destruct (setParsedDataComplete_assembly
              (completionBlob (multipartData st) (totalFrameCount st) frame)
              accountsStore (set_multipartComplete true st))
    as (-> & -> & -> & -> & ->).
  done.
Qed.

Lemma setPartData_totalFrameCount frame frameCount partData accountsStore st :
  totalFrameCount (setPartData frame frameCount partData accountsStore st).1
  = (if totalFrameCount st =? 0 then frameCount else totalFrameCount st).
Proof.
  destruct (completes st) eqn:Hc.
  - destruct (setPartData_completed frame frameCount partData accountsStore st Hc)
      as (_ & _ & _ & _ & ->).
    apply completes_spec in Hc as (? & ? & _).
    destruct (Z.eqb_spec (totalFrameCount st) 0); [lia|done].
  - destruct (Z.lt_ge_cases (Z.of_nat (size (multipartData st))) (totalFrameCount st))
      as [Hlt|Hge].
    + destruct (setPartData_storing frame frameCount partData accountsStore st Hc Hlt)
        as (_ & _ & _ & _ & ->).
      destruct (Z.eqb_spec (totalFrameCount st) 0); [lia|done].
    + by destruct (setPartData_idle frame frameCount partData accountsStore st Hc Hge)
        as (_ & _ & _ & _ & ->).
Qed.

Lemma submitFrames_cons f frames accountsStore st :
  submitFrames (f :: frames) accountsStore st
  = submitFrames frames accountsStore (setPartData f.1.1 f.1.2 f.2 accountsStore st).1.
Proof. reflexivity. Qed.

(** X1: after any sequence of submissions [totalFrameCount] is the first
    value that is not zero among its value at entry and the frame counts
    of the submitted frames, in order: once set it is never overwritten. *)
Theorem totalFrameCount_set_once frames accountsStore st :
  totalFrameCount (submitFrames frames accountsStore st)
  = default 0 (head (filter (fun c => c ≠ 0)
                       (totalFrameCount st :: ((fun f => f.1.2) <$> frames)))).
Proof.
  revert st. induction frames as [|[[f c] p] frames IH]; intros st.
  - simpl. rewrite filter_cons. case_decide; simpl; [done|]. lia.
  - rewrite submitFrames_cons, IH. simpl. rewrite setPartData_totalFrameCount.
    rewrite (filter_cons _ (totalFrameCount st)).
    destruct (Z.eqb_spec (totalFrameCount st) 0) as [->|Hne].
    + case_decide; [lia|done].
    + case_decide; [|done]. by rewrite filter_cons_True.
Qed.


Lemma elem_of_spliceFirst x y (l : list Z) : x ∈ spliceFirst y l → x ∈ l.
Proof.
  induction l as [|z l IH]; simpl; [done|].
  case_bool_decide; rewrite !elem_of_cons; [tauto|]. intros [->|?]; tauto.
Qed.

Lemma NoDup_spliceFirst y (l : list Z) : NoDup l → NoDup (spliceFirst y l).
Proof.
  induction 1 as [|z l Hz Hl IH]; simpl; [constructor|].
  case_bool_decide; [done|]. constructor; [|done].
  intros Hin. by apply elem_of_spliceFirst in Hin.
Qed.

Lemma nextMissedFrames_invariant frame total latest missed :
  0 < total →
  NoDup missed →
  (∀ k, k ∈ missed → 0 ≤ k < total) →
  NoDup (nextMissedFrames frame total latest missed)
  ∧ ∀ k, k ∈ nextMissedFrames frame total latest missed → 0 ≤ k < total.
Proof.
  intros Ht Hnd Hr. unfold nextMissedFrames.
  destruct (truthy latest && _ && _).
  - split; [apply NoDup_setFrom|].
    intros k. rewrite elem_of_setFrom, elem_of_app, list_elem_of_fmap.
    intros [Hk|(i & -> & _)]; [by apply Hr|].
    unfold numbers_mod. apply Z.mod_pos_bound. lia.
  - unfold includes. case_bool_decide; [|done].
    split; [by apply NoDup_spliceFirst|].
    intros k Hk. by apply Hr, (elem_of_spliceFirst _ (frame - 1)).
Qed.

Lemma assemblyInvariant_default : assemblyInvariant DEFAULT_STATE.
Proof.
  split; [done|]. split; [done|]. split; [constructor|].
  intros k Hk. by apply elem_of_nil in Hk.
Qed.

Lemma assemblyInvariant_setPartData frame frameCount partData accountsStore st :
  assemblyInvariant st →
  assemblyInvariant (setPartData frame frameCount partData accountsStore st).1.
Proof.
  intros (Hsize & Hdone & Hnd & Hr).
  destruct (completes st) eqn:Hc.
  - destruct (setPartData_completed frame frameCount partData accountsStore st Hc)
      as (Hm & Hmiss & _ & Hcomp & Ht).
    apply completes_spec in Hc as (? & ? & _).
    unfold assemblyInvariant. rewrite Hm, Hmiss, Ht.
    split; [lia|]. split; [intros _; lia|]. done.
  - destruct (Z.lt_ge_cases (Z.of_nat (size (multipartData st))) (totalFrameCount st))
      as [Hlt|Hge].
    + destruct (setPartData_storing frame frameCount partData accountsStore st Hc Hlt)
        as (Hm & Hmiss & _ & Hcomp & Ht).
      assert (Hpos : 0 < totalFrameCount st) by lia.
      destruct (nextMissedFrames_invariant frame (totalFrameCount st) (latestFrame st)
                  (missedFrames st) Hpos Hnd Hr) as [Hnd' Hr'].
      unfold assemblyInvariant. rewrite Hm, Hmiss, Ht, Hcomp.
      split; [|split; [|done]].
      * pose proof (map_size_insert frame (partDataAsBytes partData) (multipartData st))
          as Hs.
        destruct (multipartData st !! frame); simpl in Hs; lia.
      * intros Htrue. destruct (Hdone Htrue). lia.
    + destruct (setPartData_idle frame frameCount partData accountsStore st Hc Hge)
        as (Hm & Hmiss & _ & Hcomp & Ht).
      unfold assemblyInvariant. rewrite Hm, Hmiss, Ht, Hcomp.
      destruct (Z.eqb_spec (totalFrameCount st) 0) as [H0|Hne]; [|done].
      rewrite H0 in *.
      split; [lia|]. split.
      * intros Htrue. destruct (Hdone Htrue). lia.
      * split; [done|]. intros k Hk. specialize (Hr k Hk). lia.
Qed.

Lemma assemblyInvariant_submitFrames frames accountsStore st :
  assemblyInvariant st → assemblyInvariant (submitFrames frames accountsStore st).
Proof.
  revert st. induction frames as [|f frames IH]; intros st Hst; [done|].
  rewrite submitFrames_cons. by apply IH, assemblyInvariant_setPartData.
Qed.


(** X2: in every state that submissions reach from the initial state, the
    frame store holds at most [totalFrameCount] payloads. *)
Theorem frame_store_bounded frames accountsStore :
  let st := submitFrames frames accountsStore DEFAULT_STATE in
  Z.of_nat (size (multipartData st)) ≤ Z.max 0 (totalFrameCount st).
Proof.
  by destruct (assemblyInvariant_submitFrames frames accountsStore DEFAULT_STATE
                 assemblyInvariant_default) as (H & _).
Qed.

(** X3: once a session that started from the initial state is marked
    complete, a further submission decodes nothing and stores nothing: it
    only sets [completedFramesCount] to [totalFrameCount]. *)
Theorem completion_is_one_shot frames accountsStore frame frameCount partData :
  let st := submitFrames frames accountsStore DEFAULT_STATE in
  multipartComplete st = true →
  (setPartData frame frameCount partData accountsStore st).1
  = set_completedFramesCount (totalFrameCount st) st.
Proof.
  intros st Hdone.
  destruct (assemblyInvariant_submitFrames frames accountsStore DEFAULT_STATE
              assemblyInvariant_default) as (_ & Hinv & _).
  fold st in Hinv. destruct (Hinv Hdone) as [Hpos Hsize].
  unfold setPartData. rewrite invalidPartData_false, Hdone, Hsize.
  rewrite andb_false_r, Z.ltb_irrefl.
  destruct (Z.eqb_spec (totalFrameCount st) 0); [lia|done].
Qed.

(** X5: in every state that submissions reach from the initial state,
    [missedFrames] has no duplicates and all its entries are frame indices
    below [totalFrameCount]. *)
Theorem missedFrames_distinct_indices frames accountsStore :
  let st := submitFrames frames accountsStore DEFAULT_STATE in
  NoDup (missedFrames st) ∧ ∀ k, k ∈ missedFrames st → 0 ≤ k < totalFrameCount st.
Proof.
  by destruct (assemblyInvariant_submitFrames frames accountsStore DEFAULT_STATE
                 assemblyInvariant_default) as (_ & _ & H).
Qed.

Lemma setPartData_other_frames frame frameCount partData accountsStore st k :
  k ≠ frame →
  multipartData (setPartData frame frameCount partData accountsStore st).1 !! k
  = multipartData st !! k.
Proof.
  intros Hk. destruct (completes st) eqn:Hc.
  - by destruct (setPartData_completed frame frameCount partData accountsStore st Hc)
      as (-> & _).
  - destruct (Z.lt_ge_cases (Z.of_nat (size (multipartData st))) (totalFrameCount st))
      as [Hlt|Hge].
    + destruct (setPartData_storing frame frameCount partData accountsStore st Hc Hlt)
        as (-> & _).
      by rewrite lookup_insert_ne.
    + by destruct (setPartData_idle frame frameCount partData accountsStore st Hc Hge)
        as (-> & _).
Qed.

(** X4: a stored payload stays as it is through every submission of other
    frame indices: frames are never dropped, and the payload of an index
    changes only when that index is submitted. *)
Theorem stored_frame_is_kept frames accountsStore st k payload :
  multipartData st !! k = Some payload →
  k ∉ (fun f : Z * Z * string => f.1.1) <$> frames →
  multipartData (submitFrames frames accountsStore st) !! k = Some payload.
Proof.
  revert st. induction frames as [|f frames IH]; intros st Hk Hnot; [done|].
  rewrite submitFrames_cons. rewrite fmap_cons, not_elem_of_cons in Hnot.
  destruct Hnot as [Hne Hnot].
  apply IH; [|done]. by rewrite setPartData_other_frames.
Qed.

Lemma submitFrames_stores frames accountsStore st :
  Z.of_nat (size (multipartData st)) + Z.of_nat (length frames) ≤ totalFrameCount st →
  multipartData (submitFrames frames accountsStore st)
  = storeFrames frames (multipartData st).
Proof.
  revert st. induction frames as [|f frames IH]; intros st Hroom; [done|].
  rewrite submitFrames_cons. cbn [length] in Hroom.
  assert (Hlt : Z.of_nat (size (multipartData st)) < totalFrameCount st) by lia.
  assert (Hc : completes st = false).
  { destruct (completes st) eqn:Hc; [|done].
    apply completes_spec in Hc as (_ & ? & _). lia. }
  destruct (setPartData_storing f.1.1 f.1.2 f.2 accountsStore st Hc Hlt)
    as (Hm & _ & _ & _ & Ht).
  rewrite IH.
  - by rewrite Hm.
  - rewrite Hm, Ht.
    pose proof (map_size_insert f.1.1 (partDataAsBytes f.2) (multipartData st)) as Hs.
    destruct (multipartData st !! f.1.1); simpl in Hs; lia.
Qed.

Lemma storeFrames_permutation frames1 frames2 (m : gmap Z (list Z)) :
  frames1 ≡ₚ frames2 →
  NoDup ((fun f : Z * Z * string => f.1.1) <$> frames1) →
  storeFrames frames1 m = storeFrames frames2 m.
Proof.
  intros Hp. revert m.
  induction Hp as [|f l l' Hp IH|f g l|l l' l'' Hp1 IH1 Hp2 IH2]; intros m Hnd.
  - done.
  - rewrite fmap_cons, NoDup_cons in Hnd. destruct Hnd as [_ Hnd].
    unfold storeFrames. simpl. by apply IH.
  - rewrite !fmap_cons, !NoDup_cons, not_elem_of_cons in Hnd.
    destruct Hnd as ([Hne _] & _).
    unfold storeFrames. simpl. by rewrite insert_insert_ne.
  - rewrite IH1 by done. apply IH2. by rewrite <- Hp1.
Qed.

(** X6: while the frame store has room for them, frames with distinct
    indices leave the same frame store, and so the same reassembled blob,
    in whatever order they are submitted. *)
Theorem reassembly_is_order_independent frames1 frames2 accountsStore st frame :
  Z.of_nat (size (multipartData st)) + Z.of_nat (length frames1) ≤ totalFrameCount st →
  frames1 ≡ₚ frames2 →
  NoDup ((fun f : Z * Z * string => f.1.1) <$> frames1) →
  let st1 := submitFrames frames1 accountsStore st in
  let st2 := submitFrames frames2 accountsStore st in
  multipartData st1 = multipartData st2
  ∧ completionBlob (multipartData st1) (totalFrameCount st1) frame
    = completionBlob (multipartData st2) (totalFrameCount st2) frame.
Proof.
  intros Hroom Hp Hnd st1 st2.
  assert (Hm : multipartData st1 = multipartData st2).
  { subst st1 st2. rewrite !submitFrames_stores; [by apply storeFrames_permutation| |done].
    by rewrite <- Hp. }
  split; [done|]. rewrite Hm. f_equal.
  subst st1 st2. destruct frames1 as [|f frames1].
  - by apply Permutation_nil_l in Hp as ->.
  - rewrite !totalFrameCount_set_once. cbn [length] in Hroom.
    assert (totalFrameCount st ≠ 0) by lia.
    by rewrite !filter_cons_True.
Qed.

(** X8: a frame that directly follows the latest one, cyclically, adds
    nothing to [missedFrames]. *)
Theorem next_frame_records_no_miss frame frameCount partData accountsStore st latest :
  latestFrame st = Some latest →
  frame = (latest + 1) `mod` totalFrameCount st →
  ∀ k, k ∈ missedFrames (setPartData frame frameCount partData accountsStore st).1 →
       k ∈ missedFrames st.
Proof.
  intros Hl Hf k. destruct (completes st) eqn:Hc.
  - by destruct (setPartData_completed frame frameCount partData accountsStore st Hc)
      as (_ & -> & _).
  - destruct (Z.lt_ge_cases (Z.of_nat (size (multipartData st))) (totalFrameCount st))
      as [Hlt|Hge].
    + destruct (setPartData_storing frame frameCount partData accountsStore st Hc Hlt)
        as (_ & -> & _).
      unfold nextMissedFrames. rewrite Hl. simpl.
      assert (Hd : numbers_mod (frame - latest) (totalFrameCount st) - 1 < 1).
      { unfold numbers_mod. rewrite Hf.
        rewrite Zminus_mod_idemp_l.
        replace (latest + 1 - latest) with 1 by lia.
        assert (0 < totalFrameCount st) by lia.
        pose proof (Z.mod_pos_bound 1 (totalFrameCount st)).
        destruct (Z.eq_dec (totalFrameCount st) 1) as [->|]; [done|].
        rewrite Z.mod_small; lia. }
      destruct (Z.leb_spec 1 (numbers_mod (frame - latest) (totalFrameCount st) - 1));
        [lia|].
      rewrite andb_false_r. simpl.
      unfold includes. case_bool_decide; [|done]. apply elem_of_spliceFirst.
    + by destruct (setPartData_idle frame frameCount partData accountsStore st Hc Hge)
        as (_ & -> & _).
Qed.

End Session.

Section SessionLength.

Context `{Ext : Externals}.

Implicit Types (st : ScannerState) (accountsStore : AccountsStore).

(** X9: while no frame count is recorded, a submission records the frame
    count of its frame and nothing else; the payload is not stored. *)
Theorem first_frame_records_count_only frame frameCount partData accountsStore st :
  totalFrameCount st = 0 →
  (setPartData frame frameCount partData accountsStore st).1
  = set_completedFramesCount (Z.of_nat (size (multipartData st)))
      (set_totalFrameCount frameCount st).
Proof.
  intros H0. unfold setPartData. rewrite invalidPartData_false, H0. simpl.
  rewrite andb_false_r. simpl.
  destruct (Z.ltb_spec (Z.of_nat (size (multipartData st))) 0); [lia|done].
Qed.

(** Submissions spent so far: one to record the frame count, one for each
    stored payload, one to complete. *)
Lemma submissions_spent frames accountsStore :
  let st := submitFrames frames accountsStore DEFAULT_STATE in
  Z.of_nat (size (multipartData st))
  + (if totalFrameCount st =? 0 then 0 else 1)
  + (if multipartComplete st then 1 else 0)
  ≤ Z.of_nat (length frames).
Proof.
  cut (∀ st n,
         assemblyInvariant st →
         Z.of_nat (size (multipartData st))
         + (if totalFrameCount st =? 0 then 0 else 1)
         + (if multipartComplete st then 1 else 0) ≤ n →
         let st' := submitFrames frames accountsStore st in
         Z.of_nat (size (multipartData st'))
         + (if totalFrameCount st' =? 0 then 0 else 1)
         + (if multipartComplete st' then 1 else 0)
         ≤ n + Z.of_nat (length frames)).
  { intros H. apply (H DEFAULT_STATE 0 assemblyInvariant_default).
    vm_compute. discriminate. }
  induction frames as [|f frames IH]; intros st n Hinv Hn;
    [unfold submitFrames; simpl; lia|].
  cbv zeta. rewrite submitFrames_cons. cbn [length].
  replace (n + Z.of_nat (S (length frames))) with ((n + 1) + Z.of_nat (length frames))
    by lia.
  apply IH; [by apply assemblyInvariant_setPartData|].
  destruct Hinv as (Hsize & Hdone & _).
  destruct (completes st) eqn:Hc.
  - destruct (setPartData_completed f.1.1 f.1.2 f.2 accountsStore st Hc)
      as (-> & _ & _ & -> & ->).
    apply completes_spec in Hc as (? & ? & Hf). rewrite Hf in Hn.
    destruct (totalFrameCount st =? 0); lia.
  - destruct (Z.lt_ge_cases (Z.of_nat (size (multipartData st))) (totalFrameCount st))
      as [Hlt|Hge].
    + destruct (setPartData_storing f.1.1 f.1.2 f.2 accountsStore st Hc Hlt)
        as (-> & _ & _ & -> & ->).
      pose proof (map_size_insert f.1.1 (partDataAsBytes f.2) (multipartData st)) as Hs.
      destruct (multipartComplete st) eqn:Hd.
      { destruct (Hdone eq_refl). lia. }
      destruct (multipartData st !! f.1.1); simpl in Hs;
        destruct (totalFrameCount st =? 0); lia.
    + destruct (setPartData_idle f.1.1 f.1.2 f.2 accountsStore st Hc Hge)
        as (-> & _ & _ & -> & ->).
      destruct (Z.eqb_spec (totalFrameCount st) 0) as [H0|Hne].
      * destruct (multipartComplete st) eqn:Hd; [destruct (Hdone eq_refl); lia|].
        destruct (f.1.2 =? 0); lia.
      * destruct (Z.eqb_spec (totalFrameCount st) 0); [done|].
        destruct (multipartComplete st); lia.
Qed.

(** X10: a session that started from the initial state and is marked
    complete has a positive [totalFrameCount] and took at least two
    submissions more than that: one to record the count, one for each
    frame, one to complete. *)
Theorem completion_needs_two_more_submissions frames accountsStore :
  let st := submitFrames frames accountsStore DEFAULT_STATE in
  multipartComplete st = true →
  0 < totalFrameCount st ∧ totalFrameCount st + 2 ≤ Z.of_nat (length frames).
Proof.
  intros st Hdone.
  destruct (assemblyInvariant_submitFrames frames accountsStore DEFAULT_STATE
              assemblyInvariant_default) as (_ & Hinv & _).
  fold st in Hinv. destruct (Hinv Hdone) as [Hpos Hsize].
  split; [done|].
  pose proof (submissions_spent frames accountsStore) as Hn. fold st in Hn.
  cbv zeta in Hn. rewrite Hdone, Hsize in Hn.
  destruct (Z.eqb_spec (totalFrameCount st) 0); lia.
Qed.

End SessionLength.

(** ** The bytes of a fragment *)

Lemma partDataAsBytes_pair a b (s : string) :
  partDataAsBytes (String a (String b s))
  = toUint8 (parseInt16 (String a (String b EmptyString))) :: partDataAsBytes s.
Proof.
  unfold partDataAsBytes. cbn [String.length].
  replace (S (S (String.length s)) / 2)%nat with (S (String.length s / 2)).
  2:{ replace (S (S (String.length s))) with (String.length s + 1 * 2)%nat by lia.
      rewrite Nat.div_add by lia. lia. }
  cbn [seq fmap list_fmap]. f_equal.
  - f_equal. f_equal. simpl. by destruct s.
  - rewrite <- fmap_S_seq, <- list_fmap_compose. apply list_fmap_ext.
    intros i x _. simpl. reflexivity.
Qed.

Lemma parseInt16_hexChars x y :
  0 ≤ x < 16 → 0 ≤ y < 16 →
  parseInt16 (String (hexChar x) (String (hexChar y) EmptyString)) = Some (16 * x + y).
Proof.
  intros Hx Hy.
  rewrite <- (Z2Nat.id x), <- (Z2Nat.id y) by lia.
  assert (Hn : (Z.to_nat x < 16)%nat) by lia.
  assert (Hm : (Z.to_nat y < 16)%nat) by lia.
  generalize dependent (Z.to_nat y). generalize dependent (Z.to_nat x).
  clear. intros n Hn m Hm.
  do 16 (destruct n as [|n]; [do 16 (destruct m as [|m]; [reflexivity|]); lia|]).
  lia.
Qed.

(** X7: the bytes read from a fragment are as many as half its characters
    and lie in [[0, 256)]; reading the hexadecimal encoding (without
    prefix) of a byte array gives the array back. *)
Theorem partDataAsBytes_of_hex bytes (partData : string) :
  (length (partDataAsBytes partData) = (String.length partData / 2)%nat
   ∧ Forall (fun b => 0 ≤ b < 256) (partDataAsBytes partData))
  ∧ (Forall (fun b => 0 ≤ b < 256) bytes →
     partDataAsBytes (u8aToHex bytes false) = bytes).
Proof.
  split.
  - unfold partDataAsBytes. split; [by rewrite length_fmap, length_seq|].
    apply Forall_fmap, Forall_forall. intros i _. simpl.
    unfold toUint8. destruct (parseInt16 _); [|lia].
    apply Z.mod_pos_bound. lia.
  - unfold u8aToHex. induction 1 as [|b bytes Hb _ IH]; [reflexivity|].
    cbn [hexEncode]. rewrite partDataAsBytes_pair, IH. f_equal.
    rewrite parseInt16_hexChars.
    + simpl. rewrite <- Z.div_mod by lia. apply Z.mod_small. lia.
    + split; [apply Z.div_pos; lia|apply Z.div_lt_upper_bound; lia].
    + apply Z.mod_pos_bound. lia.
Qed.

(** ** Decoding and signing leave the rest of the state alone *)

(** Case analysis on the result of the backend call in the goal. *)
Ltac case_backend signed e H :=
  match goal with
  | |- context [native ?c] => destruct (native c) as [signed|e] eqn:H
  end.

Section Frames.

Context `{Ext : Externals}.

Implicit Types (st : ScannerState) (accountsStore : AccountsStore).

(** X11: decoding a complete request leaves [busy], [sender],
    [dataToSign], [isHash] and [signedData] as they are, and leaves an
    earlier error message in place when the account is found, as written
    or re-encoded, and when the codec throws. *)
Theorem decoding_keeps_signing_fields strippedData multipartComplete accountsStore st
    parsedData :
  constructDataFromBytes strippedData multipartComplete = Ok (Complete parsedData) →
  let r := (setParsedData strippedData accountsStore multipartComplete st).1 in
  (busy r = busy st ∧ sender r = sender st ∧ dataToSign r = dataToSign st
   ∧ isHash r = isHash st ∧ signedData r = signedData st)
  ∧ ((is_Some (getAccountByAddress accountsStore (account (reqData parsedData)))
      ∨ (∃ c, Ok c ∈ candidates (account (reqData parsedData))
              ∧ is_Some (getAccountByAddress accountsStore c))
      ∨ (∃ e, Throw e ∈ candidates (account (reqData parsedData)))) →
     scanErrorMsg r = scanErrorMsg st).
Proof.
  intros Hd r. subst r. rewrite (setParsedData_request _ _ _ _ _ Hd).
  unfold setRequest.
  pose proof (findOnNetworks_first SUBSTRATE_NETWORK_LIST accountsStore
                (account (reqData parsedData))) as Hfind.
  cbv zeta in Hfind. fold (candidates (account (reqData parsedData))) in Hfind.
  destruct (getAccountByAddress accountsStore (account (reqData parsedData)))
    as [a|] eqn:Ha; [done|].
  destruct (findOnNetworks _ _ _) as [[found|]|e']; [done| |done].
  split; [done|]. intros [[? [=]]|[(c & Hc & [a Hsome])|(e & He)]].
  - destruct (Hfind (Ok c) Hc) as (? & [= <-] & Hnone). congruence.
  - by destruct (Hfind (Throw e) He) as (? & [=] & _).
Qed.

Lemma signDataBiometric_effect legacy st :
  writesSignatureOnly st (signDataBiometric legacy st).
Proof.
  unfold writesSignatureOnly, signDataBiometric.
  destruct (senderIsEthereum st) as [[signer [|]]|]; simpl; [| |right; auto].
  - case_backend signed e Hn; simpl; [|right; auto].
    left. split; [done|]. by eexists _, _.
  - destruct (buildSignable _ _) as [signable|]; simpl; [|right; auto].
    case_backend signed e Hn; simpl; [|right; auto].
    destruct (tagSignature signed); simpl; [|right; auto].
    left. split; [done|]. by eexists _, _.
Qed.

Lemma signDataWithSuri_effect suri st :
  writesSignatureOnly st (signDataWithSuri suri st).
Proof.
  unfold writesSignatureOnly, signDataWithSuri.
  destruct (senderIsEthereum st) as [[signer [|]]|]; simpl; [| |right; auto].
  - case_backend signed e Hn; simpl; [|right; auto].
    left. split; [done|]. by eexists _, _.
  - destruct (buildSignable _ _) as [signable|]; simpl; [|right; auto].
    case_backend signed e Hn; simpl; [|right; auto].
    destruct (tagSignature signed); simpl; [|right; auto].
    left. split; [done|]. by eexists _, _.
Qed.

(** X13: for a sender on an Ethereum network the signable is [dataToSign]
    itself, whatever [isHash] is, and the signature of the backend is
    stored as it comes, without tag. *)
Theorem ethereum_signature_is_untagged st signer params legacy suri :
  sender st = Some signer →
  NETWORK_LIST (networkKey signer) = Some params →
  protocol params = ETHEREUM →
  let bio := signDataBiometric legacy st in
  let brain := signDataWithSuri suri st in
  calls bio
  = [SecureEthkeySign APP_ID (pinKey signer) (dataToSign st) (encryptedSeed signer)]
  ∧ calls brain = [BrainWalletSign suri (dataToSign st)]
  ∧ (∀ signature,
       native (SecureEthkeySign APP_ID (pinKey signer) (dataToSign st)
                 (encryptedSeed signer)) = Ok signature →
       after bio = set_signedData signature st ∧ completion bio = Ok None)
  ∧ (∀ signature,
       native (BrainWalletSign suri (dataToSign st)) = Ok signature →
       after brain = set_signedData signature st ∧ completion brain = Ok None).
Proof.
  intros Hs Hn Hp bio brain.
  assert (He : senderIsEthereum st = Ok (signer, true)).
  { unfold senderIsEthereum. by rewrite Hs, Hn, Hp. }
  subst bio brain. unfold signDataBiometric, signDataWithSuri. rewrite He. simpl.
  split; [by case_backend signed e Hc|].
  split; [by case_backend signed e Hc|].
  split; intros signature ->; done.
Qed.

(** No name that the table inherits is a key of one of its entries. *)
Lemma NETWORK_LIST_inherited key :
  key ∈ objectPrototypeNames → NETWORK_LIST key = None.
Proof.
  unfold objectPrototypeNames. rewrite !elem_of_cons, elem_of_nil.
  intros H. repeat (destruct H as [->|H]; [vm_compute; reflexivity|]). done.
Qed.

(** X14: without a sender, or with a sender whose network key is neither
    the key of an entry of [NETWORK_LIST] nor a name that the table
    inherits, both signing methods reject with a [TypeError] before any
    backend call and leave the state as it was: the lookup comes before
    the [try] of [signDataBiometric], so that method does not catch the
    error either.  Under an inherited name the lookup gives a value
    without [protocol], and the request is signed as a Substrate one. *)
Theorem signing_needs_a_known_network st legacy suri :
  ((sender st = None
    ∨ ∃ signer, sender st = Some signer
                ∧ NETWORK_LIST (networkKey signer) = None
                ∧ networkKey signer ∉ objectPrototypeNames) →
   Forall (fun r => after r = st ∧ calls r = [] ∧ completion r = Throw "TypeError")
     [signDataBiometric legacy st; signDataWithSuri suri st])
  ∧ (∀ signer signable,
       sender st = Some signer →
       networkKey signer ∈ objectPrototypeNames →
       buildSignable (dataToSign st) (isHash st) = Ok signable →
       calls (signDataBiometric legacy st)
       = [SecureSubstrateSign APP_ID (pinKey signer) signable (encryptedSeed signer)
            legacy]
       ∧ calls (signDataWithSuri suri st) = [SubstrateSign suri signable]).
Proof.
  split.
  - intros H.
    assert (He : senderIsEthereum st = Throw "TypeError").
    { unfold senderIsEthereum. destruct H as [->|(signer & -> & -> & Hk)]; [done|].
      by rewrite bool_decide_eq_false_2. }
    repeat apply Forall_cons_2; [| |apply Forall_nil_2].
    + unfold signDataBiometric. by rewrite He.
    + unfold signDataWithSuri. by rewrite He.
  - intros signer signable Hs Hk Hb.
    assert (He : senderIsEthereum st = Ok (signer, false)).
    { unfold senderIsEthereum. rewrite Hs, (NETWORK_LIST_inherited _ Hk).
      by rewrite bool_decide_eq_true_2. }
    unfold signDataBiometric, signDataWithSuri. rewrite He, Hb. simpl.
    split; case_backend signed e Hc; simpl; try done;
      by destruct (tagSignature signed).
Qed.

End Frames.

(** ** Requests *)

Section RequestProperties.

Context `{Ext : Externals} `{Req : RequestExternals}.

(** X12: each of the four signing methods either completes after exactly
    one successful backend call, having written [signedData] and nothing
    else, or leaves the state as it was, having called the backend once at
    most. *)
Theorem signing_writes_signedData_only legacy suri pin seed protocol st :
  Forall (writesSignatureOnly st)
    [signDataBiometric legacy st; signDataWithSuri suri st;
     signDataLegacy pin st; signDataWithSeed seed protocol st].
Proof.
  repeat apply Forall_cons_2; [| | | |apply Forall_nil_2].
  - apply signDataBiometric_effect.
  - apply signDataWithSuri_effect.
  - unfold signDataLegacy.
    destruct (sender st) as [signer|]; [|right; auto].
    destruct (decryptData _ _) as [s|e]; [apply signDataWithSuri_effect|right; auto].
  - unfold signDataWithSeed.
    destruct (protocol_eqb protocol SUBSTRATE); [|apply signDataWithSuri_effect].
    destruct (sender st) as [signer|]; [|right; auto].
    destruct (constructSURI _ _ _) as [s|e]; [apply signDataWithSuri_effect|right; auto].
Qed.


Implicit Types (store : AccountsStoreById) (state : StoreState).

(** X15: [setDataToSign] sets [busy] in every case.  Either it returns
    [true] with the account found under the request's address as sender,
    the type [MESSAGE], and as [dataToSign] the message itself for the
    schemes sr25519 and ed25519 and the result of [ethSign] otherwise; or
    [busy] is its only effect, and it rejects with the error of [ethSign]
    or, for an unknown address, with the missing-key message. *)
Theorem setDataToSign_outcome signRequest store state :
  let res := setDataToSign signRequest store state in
  let address := account (reqData signRequest) in
  let text := data (reqData signRequest) in
  busy res.1.1 = true
  ∧ ((res.2 = Ok true
      ∧ (∃ signer, getAccountByAddress (byAddress store) address = Some signer
                   ∧ sender res.1.1 = Some signer)
      ∧ type res.1.2 = Some MESSAGE
      ∧ message res.1.2 = Some text
      ∧ isHash res.1.1 = reqIsHash signRequest
      ∧ (if isSubstrateCrypto (crypto (reqData signRequest))
         then dataToSign res.1.1 = text
         else ∃ signed, ethSign text = Ok signed
                        ∧ dataToSign res.1.1 = DString signed))
     ∨ (res.1 = (setBusy state.1, state.2)
        ∧ ((∃ e, isSubstrateCrypto (crypto (reqData signRequest)) = false
                 ∧ ethSign text = Throw e ∧ res.2 = Throw e)
           ∨ (getAccountByAddress (byAddress store) address = None
              ∧ res.2 = Throw ("No private key found for " +:+ address
                               +:+ " in your signer key storage."))))).
Proof.
  intros res address text. subst res. unfold setDataToSign. fold address text.
  destruct (isSubstrateCrypto _) eqn:Hc.
  - destruct (getAccountByAddress _ _) as [signer|] eqn:Ha; simpl.
    + split; [done|]. left. repeat split; try done. by exists signer.
    + split; [done|]. right. split; [done|]. by right.
  - destruct (ethSign text) as [signed|e] eqn:He; simpl.
    + destruct (getAccountByAddress _ _) as [signer|] eqn:Ha; simpl.
      * split; [done|]. left. repeat split; try done; [by exists signer|by exists signed].
      * split; [done|]. right. split; [done|]. by right.
    + split; [done|]. right. split; [done|]. left. by exists e.
Qed.




(** X17: for a Substrate transaction that is accepted, the data is an
    extrinsic payload, it is stored unhashed as [dataToSign] and as [tx],
    and the recipient stored is the sender. *)
Theorem substrate_recipient_is_sender request store state :
  default "" (rlp (reqData request)) = "" →
  let res := setTXRequest request store state in
  res.2 = Ok true →
  ∃ payload signer,
    data (reqData request) = DPayload payload
    ∧ getById store (account (reqData request)) (genesisHashHex payload) = Some signer
    ∧ sender res.1.1 = Some signer
    ∧ recipient res.1.2 = Some signer
    ∧ dataToSign res.1.1 = DPayload payload
    ∧ tx res.1.2 = TxData (DPayload payload).
Proof.
  intros Hraw res. subst res. unfold setTXRequest. rewrite Hraw. simpl.
  destruct (data (reqData request)) as [|s|bytes|payload]; try done.
  destruct (NETWORK_LIST _); [|done].
  destruct (getById store _ _) as [signer|] eqn:Hg; [|done].
  simpl. intros _. by exists payload, signer.
Qed.


(** X19: [setData] needs an unsigned request; it hands requests with the
    actions [signTransaction] and [signData] to their methods, which set
    [busy], and rejects any other action without touching the state. *)
Theorem setData_dispatch store state :
  let res := setData store state in
  (unsignedData state.1 = None → res = (state, Throw "TypeError"))
  ∧ (∀ unsigned, unsignedData state.1 = Some unsigned →
       (action unsigned = "signTransaction" → res = setTXRequest unsigned store state)
       ∧ (action unsigned = "signData" → res = setDataToSign unsigned store state)
       ∧ (action unsigned ≠ "signTransaction" → action unsigned ≠ "signData" →
          res = (state, Throw
                   "Scanned QR should contain either transaction or a message to sign"))
       ∧ (busy res.1.1 = true
          ∨ (res.1 = state ∧ action unsigned ≠ "signTransaction"
             ∧ action unsigned ≠ "signData"))).
Proof.
  intros res. subst res. unfold setData. split; [by intros ->|].
  intros unsigned ->.
  destruct (String.eqb_spec (action unsigned) "signTransaction") as [Ht|Ht].
  - repeat split; try done.
    + intros Hd. rewrite Hd in Ht. done.
    + left. unfold setTXRequest. repeat case_match; done.
  - destruct (String.eqb_spec (action unsigned) "signData") as [Hd|Hd].
    + repeat split; try done. left. unfold setDataToSign. repeat case_match; done.
    + repeat split; try done. by right.
Qed.

End RequestProperties.

(** ** Starting a new scan *)

Section NewScan.

Context `{Ext : Externals}.

Implicit Types (st : ScannerState) (accountsStore : AccountsStore).

Lemma completes_assemblyFields st st' :
  assemblyFields st = assemblyFields st' → completes st = completes st'.
Proof. unfold assemblyFields, completes. by intros [= -> _ _ -> ->]. Qed.

(** The assembly fields after a call depend on the assembly fields at
    entry only. *)
Lemma setPartData_assemblyFields frame frameCount partData accountsStore st st' :
  assemblyFields st = assemblyFields st' →
  assemblyFields (setPartData frame frameCount partData accountsStore st).1
  = assemblyFields (setPartData frame frameCount partData accountsStore st').1.
Proof.
  intros Heq. pose proof (completes_assemblyFields st st' Heq) as Hceq.
  pose proof Heq as Hf. unfold assemblyFields in Hf.
  injection Hf as Ht Hl Hmiss Hm Hdone.
  unfold assemblyFields at 1 2.
  destruct (completes st) eqn:Hc.
  - symmetry in Hceq.
    destruct (setPartData_completed frame frameCount partData accountsStore st Hc)
      as (-> & -> & -> & -> & ->).
    destruct (setPartData_completed frame frameCount partData accountsStore st' Hceq)
      as (-> & -> & -> & -> & ->).
    by rewrite Ht, Hl, Hmiss, Hm.
  - symmetry in Hceq.
    destruct (Z.lt_ge_cases (Z.of_nat (size (multipartData st))) (totalFrameCount st))
      as [Hlt|Hge].
    + assert (Hlt' : Z.of_nat (size (multipartData st')) < totalFrameCount st')
        by by rewrite <- Hm, <- Ht.
      destruct (setPartData_storing frame frameCount partData accountsStore st Hc Hlt)
        as (-> & -> & -> & -> & ->).
      destruct (setPartData_storing frame frameCount partData accountsStore st' Hceq Hlt')
        as (-> & -> & -> & -> & ->).
      by rewrite Ht, Hl, Hmiss, Hm, Hdone.
    + assert (Hge' : totalFrameCount st' ≤ Z.of_nat (size (multipartData st')))
        by by rewrite <- Hm, <- Ht.
      destruct (setPartData_idle frame frameCount partData accountsStore st Hc Hge)
        as (-> & -> & -> & -> & ->).
      destruct (setPartData_idle frame frameCount partData accountsStore st' Hceq Hge')
        as (-> & -> & -> & -> & ->).
      by rewrite Ht, Hl, Hmiss, Hm, Hdone.
Qed.

(** X20: after [clearMultipartProgress] a scan assembles exactly as from
    the initial state, while [busy], [sender], [dataToSign], [signedData]
    and the error message are kept; [cleanup] gives every field its
    default value. *)
Theorem scan_after_clearMultipartProgress frames accountsStore st (state : StoreState) :
  let cleared := clearMultipartProgress st in
  assemblyFields (submitFrames frames accountsStore cleared)
  = assemblyFields (submitFrames frames accountsStore DEFAULT_STATE)
  ∧ (busy cleared = busy st ∧ sender cleared = sender st
     ∧ dataToSign cleared = dataToSign st ∧ signedData cleared = signedData st
     ∧ scanErrorMsg cleared = scanErrorMsg st ∧ unsignedData cleared = None)
  ∧ cleanup state = (DEFAULT_STATE, DEFAULT_REQUEST_STATE).
Proof.
  intros cleared. split; [|done].
  assert (Heq : assemblyFields cleared = assemblyFields DEFAULT_STATE) by done.
  generalize dependent DEFAULT_STATE. generalize cleared. clear.
  induction frames as [|f frames IH]; intros s s' Heq; [done|].
  rewrite !submitFrames_cons. by apply IH, setPartData_assemblyFields.
Qed.

End NewScan.

(** ** Users of the network table *)

(** X21: the constructor of [PayloadDetailsCard] chooses the Kusama
    metadata for every prefix, so [fallback] is always false. *)
Theorem payload_card_always_kusama prefix dev :
  PayloadDetailsCard.chooseMetadata prefix dev = Ok (Some PayloadDetailsCard.kusamaMetadata)
  ∧ PayloadDetailsCard.fallback prefix dev = Ok false.
Proof.
  assert (H : PayloadDetailsCard.chooseMetadata prefix dev
              = Ok (Some PayloadDetailsCard.kusamaMetadata)).
  { unfold PayloadDetailsCard.chooseMetadata.
    change (substrateNetwork KUSAMA) with (Some
      {| sTitle := "Kusama"; sPathId := "kusama"; sPrefix := 2 |}).
    change (substrateNetwork KUSAMA_DEV) with (Some
      {| sTitle := "Kusama Development"; sPathId := "kusama_dev"; sPrefix := 2 |}).
    change (substrateNetwork SUBSTRATE_DEV) with (Some
      {| sTitle := "Substrate Development"; sPathId := "substrate_dev";
         sPrefix := 42 |}).
    cbn [sPrefix]. unfold PayloadDetailsCard.equalOr. simpl.
    by rewrite orb_true_r. }
  split; [done|]. unfold PayloadDetailsCard.fallback. by rewrite H.
Qed.

(** ** Account ids and identities *)

Section AccountIds.

Import Identities.

Lemma split_no_sep sep (s : string) : occurs sep s = false → split sep s = [s].
Proof.
  induction s as [|c s IH]; simpl; [done|].
  intros [Hc Hs]%orb_false_iff. rewrite Hc, IH; done.
Qed.

Lemma split_at_sep sep (a t : string) :
  occurs sep a = false →
  split sep (a +:+ String sep t) = a :: split sep t.
Proof.
  induction a as [|c a IH]; simpl.
  - intros _. by rewrite Ascii.eqb_refl.
  - intros [Hc Ha]%orb_false_iff. rewrite Hc, IH; done.
Qed.

Lemma split_nonempty sep (s : string) : ∃ piece rest, split sep s = piece :: rest.
Proof.
  induction s as [|c s (p & r & IH)]; simpl; [by eexists _, _|].
  destruct (Ascii.eqb c sep); [by eexists _, _|]. rewrite IH. by eexists _, _.
Qed.

Lemma split_head_app sep (a t : string) :
  occurs sep a = false →
  head (split sep (a +:+ t)) = (fun piece => a +:+ piece) <$> head (split sep t).
Proof.
  induction a as [|c a IH]; simpl.
  - intros _. change (String.append EmptyString t) with t.
    destruct (head (split sep t)); reflexivity.
  - intros [Hc Ha]%orb_false_iff. rewrite Hc. specialize (IH Ha).
    destruct (split_nonempty sep (a +:+ t)) as (p & ps & Hp).
    destruct (split_nonempty sep t) as (q & qs & Hq).
    rewrite Hp, Hq in *. simpl in *. by simplify_eq.
Qed.

Lemma extractAddressFromAccountId_parts network address rest id :
  (occurs ":" id = false → extractAddressFromAccountId id = Throw "TypeError")
  ∧ (occurs ":" network = false →
     occurs ":" address = false →
     occurs "@" address = false →
     extractAddressFromAccountId (network +:+ ":" +:+ address +:+ "@" +:+ rest)
     = Ok (match indexOf "0x" address with
           | Some _ => slice2 address
           | None => address
           end)).
Proof.
  split.
  - intros Hid. unfold extractAddressFromAccountId. by rewrite split_no_sep.
  - intros Hn Ha Hat. unfold extractAddressFromAccountId.
    change (network +:+ ":" +:+ address +:+ "@" +:+ rest)
      with (network +:+ String ":" (address +:+ String "@" rest)).
    rewrite split_at_sep by done.
    assert (Hw : ∃ q ws, split ":" (address +:+ String "@" rest)
                         = (address +:+ String "@" q) :: ws).
    { pose proof (split_head_app ":" address (String "@" rest) Ha) as Hh.
      destruct (split_nonempty ":" (address +:+ String "@" rest)) as (w & ws & Hw).
      destruct (split_nonempty ":" rest) as (q & qs & Hq).
      rewrite Hw in Hh. simpl in Hh. rewrite Hq in Hh. simpl in Hh.
      injection Hh as ->. by exists q, ws. }
    destruct Hw as (q & ws & ->). cbn [lookup list_lookup].
    rewrite split_at_sep by done.
    change (default EmptyString (head (address :: split "@" q))) with address.
    by destruct (indexOf "0x" address).
Qed.

Lemma indexOf_prefix (needle s : string) : indexOf needle (needle +:+ s) = Some 0%nat.
Proof.
  assert (H : String.prefix needle (needle +:+ s) = true).
  { induction needle as [|c n IH]; simpl; [by destruct s|].
    destruct (ascii_dec c c); [done|congruence]. }
  destruct needle as [|c n]; destruct s as [|d s]; simpl in *; by rewrite ?H.
Qed.

(** X22: [extractAddressFromAccountId] throws on an id without colon; on
    an id [network:address@rest] it returns the address, less its first
    two characters when ["0x"] occurs anywhere in it, so that
    [network:0xaddress@rest] gives [address]. *)
Theorem extractAddressFromAccountId_format network address rest id :
  (occurs ":" id = false → extractAddressFromAccountId id = Throw "TypeError")
  ∧ (occurs ":" network = false →
     occurs ":" address = false →
     occurs "@" address = false →
     extractAddressFromAccountId (network +:+ ":" +:+ address +:+ "@" +:+ rest)
     = Ok (match indexOf "0x" address with
           | Some _ => slice2 address
           | None => address
           end)
     ∧ extractAddressFromAccountId
         (network +:+ ":" +:+ ("0x" +:+ address) +:+ "@" +:+ rest)
       = Ok address).
Proof.
  split; [apply (extractAddressFromAccountId_parts network address rest id)|].
  intros Hn Ha Hat.
  split; [by apply (extractAddressFromAccountId_parts network address rest id)|].
  destruct (extractAddressFromAccountId_parts network ("0x" +:+ address) rest id)
    as [_ ->]; try (simpl; done).
  by rewrite indexOf_prefix.
Qed.

(** X23: [getAddressWithPath] gives the empty string for a path without
    entry, the stored address when it is not an Ethereum account id, and
    the bare address of an Ethereum account id [ethereum:0xaddress@chain]. *)
Theorem getAddressWithPath_cases path meta :
  (Forall (fun e : string * AccountMeta => e.1 ≠ path) meta →
   getAddressWithPath path meta = Ok EmptyString)
  ∧ (∀ entry, List.find (fun e : string * AccountMeta => String.eqb e.1 path) meta
              = Some entry →
       (isEthereumAccountId (metaAddress entry.2) = false →
        getAddressWithPath path meta = Ok (metaAddress entry.2))
       ∧ (∀ address chain,
            metaAddress entry.2 = "ethereum:0x" +:+ address +:+ "@" +:+ chain →
            occurs ":" address = false →
            occurs "@" address = false →
            getAddressWithPath path meta = Ok address)).
Proof.
  unfold getAddressWithPath. split.
  - intros Hall. replace (List.find _ meta) with (@None (string * AccountMeta)); [done|].
    symmetry. induction Hall as [|e meta He _ IH]; simpl; [done|].
    by destruct (String.eqb_spec e.1 path).
  - intros entry ->. simpl. split; [by intros ->|].
    intros address chain Hm Ha Hat. rewrite Hm.
    unfold isEthereumAccountId.
    change ("ethereum:0x" +:+ address +:+ "@" +:+ chain)
      with ("ethereum:" +:+ ("0x" +:+ address +:+ "@" +:+ chain)) at 1.
    rewrite indexOf_prefix.
    change ("ethereum:0x" +:+ address +:+ "@" +:+ chain)
      with ("ethereum" +:+ ":" +:+ ("0x" +:+ address) +:+ "@" +:+ chain).
    destruct (extractAddressFromAccountId_parts "ethereum" ("0x" +:+ address) chain "")
      as [_ ->]; try (simpl; done).
    by rewrite indexOf_prefix.
Qed.

Lemma assign_fresh {A} key (v : A) (obj : list (string * A)) :
  key ∉ obj.*1 → assign key v obj = obj ++ [(key, v)].
Proof.
  induction obj as [|[k w] obj IH]; simpl; [done|].
  rewrite not_elem_of_cons. intros [Hne Hnot].
  destruct (String.eqb_spec k key); [congruence|]. by rewrite IH.
Qed.

(** Assigning the entries of an object with distinct keys, one after the
    other, lists them in their order. *)
Lemma assign_all {A B} (f : A → B) (entries : list (string * A)) (acc : list (string * B)) :
  NoDup (acc.*1 ++ entries.*1) →
  foldl (fun obj e => assign e.1 (f e.2) obj) acc entries
  = acc ++ ((fun e => (e.1, f e.2)) <$> entries).
Proof.
  revert acc. induction entries as [|[k v] entries IH]; intros acc Hnd; simpl.
  - by rewrite app_nil_r.
  - simpl in Hnd. rewrite assign_fresh.
    + rewrite IH.
      * by rewrite <- app_assoc.
      * rewrite fmap_app. simpl. by rewrite <- app_assoc.
    + apply NoDup_app in Hnd as (_ & Hdisj & _). intros Hin.
      apply (Hdisj k Hin). by left.
Qed.

Lemma foldl_pointwise {A B} (f g : A → B → A) (l : list B) (a : A) :
  (∀ a x, f a x = g a x) → foldl f a l = foldl g a l.
Proof.
  intros Hfg. revert a. induction l as [|x l IH]; intros a; simpl; [done|].
  by rewrite Hfg, IH.
Qed.

Lemma newMap_entries {V} (entries : list (string * V)) :
  NoDup entries.*1 → newMap entries = entries.
Proof.
  intros Hnd. unfold newMap.
  transitivity ([] ++ ((fun e : string * V => (e.1, id e.2)) <$> entries)).
  - by apply (assign_all id entries []).
  - simpl. clear Hnd. induction entries as [|[k v] entries IH]; [done|].
    rewrite fmap_cons. by f_equal.
Qed.

(** X24: an identity whose fields are strings and [Map]s is equal to its
    deep copy; serialisation keeps the fields in order and turns every
    [Map] into the array of its entries. *)
Theorem deepCopyIdentity_id {V} (identity : list (string * Field V)) :
  NoDup identity.*1 →
  Forall (fun e : string * Field V =>
            match e.2 with
            | Plain _ => True
            | MapField entries => NoDup entries.*1
            | ArrayField _ => False
            end) identity →
  deepCopyIdentity identity = identity
  ∧ serializeIdentity identity
    = (fun e : string * Field V =>
         (e.1, match e.2 with MapField entries => ArrayField entries | v => v end))
        <$> identity.
Proof.
  intros Hnd Hfields.
  set (ser := fun v : Field V =>
                match v with MapField entries => ArrayField entries | v => v end).
  set (de := fun v : Field V =>
               match v with ArrayField entries => MapField (newMap entries) | v => v end).
  assert (Hs : serializeIdentity identity = (fun e => (e.1, ser e.2)) <$> identity).
  { unfold serializeIdentity.
    etrans; [|exact (assign_all ser identity [] Hnd)].
    apply foldl_pointwise. intros acc [k [t|m|a]]; reflexivity. }
  split.
  2:{ rewrite Hs. apply list_fmap_ext. intros i [k [t|m|a]] _; reflexivity. }
  unfold deepCopyIdentity. rewrite Hs.
  assert (Hd : ∀ l : list (string * Field V), NoDup l.*1 →
                 deserializeIdentity l = (fun e => (e.1, de e.2)) <$> l).
  { intros l Hl. unfold deserializeIdentity.
    etrans; [|exact (assign_all de l [] Hl)].
    apply foldl_pointwise. intros acc [k [t|m|a]]; reflexivity. }
  rewrite Hd.
  - clear Hs Hd Hnd. induction Hfields as [|[k v] identity Hv _ IH]; [done|].
    rewrite !fmap_cons, IH. f_equal. simpl in Hv.
    destruct v as [t|m|a]; simpl; [done| |done]. by rewrite newMap_entries.
  - by rewrite <- list_fmap_compose.
Qed.

(** X25: [getNetworkKeyByPathId] gives every Substrate network its own key
    back from its path id, and [unknown] for a path id that no Substrate
    network has. *)
Theorem getNetworkKeyByPathId_substrate pathId :
  Forall (fun e : string * SubstrateNetworkParams =>
            getNetworkKeyByPathId (sPathId e.2) = e.1) SUBSTRATE_NETWORK_LIST
  ∧ (Forall (fun e : string * SubstrateNetworkParams => sPathId e.2 ≠ pathId)
       SUBSTRATE_NETWORK_LIST →
     getNetworkKeyByPathId pathId = "unknown").
Proof.
  split.
  - repeat constructor.
  - intros Hall. unfold getNetworkKeyByPathId.
    destruct (list_find _ networkPathIds) as [[i [key p]]|] eqn:Hfind; [|done].
    apply list_find_Some in Hfind as (Hi & Hp & _). simpl in Hp. subst p.
    apply list_elem_of_lookup_2 in Hi as Hin.
    unfold networkPathIds in Hin.
    rewrite !elem_of_app, !list_elem_of_fmap, list_elem_of_singleton in Hin.
    destruct Hin as [(k & [=] & _)|[(e & [= -> Hpath] & He)|[= -> Hpath]]].
    + rewrite Forall_forall in Hall. by destruct (Hall e He).
    + by rewrite Hi.
Qed.

End AccountIds.

(** ** The further properties on the concrete environments *)

(** A session of three frames after its completion. *)
Lemma completion_is_one_shot_witness :
  let E := Env.externals Env.signing in
  let frames := [(0, 3, "aa"); (0, 3, "aa"); (1, 3, "bb"); (2, 3, "cc"); (0, 3, "aa")] in
  let st := submitFrames (Ext := E) frames Env.accounts DEFAULT_STATE in
  multipartComplete st = true
  ∧ (setPartData (Ext := E) 1 3 "bb" Env.accounts st).1
    = set_completedFramesCount (totalFrameCount st) st.
Proof.
  intros E frames st.
  assert (H : multipartComplete st = true) by (vm_compute; reflexivity).
  split; [exact H|].
  exact (completion_is_one_shot (Ext := E) frames Env.accounts 1 3 "bb" H).
Defined.

(** Frame 1 of 4 through three later submissions. *)
Lemma stored_frame_is_kept_witness :
  let E := Env.externals Env.signing in
  let st := submitFrames (Ext := E) [(0, 4, "aa"); (1, 4, "bb")] Env.accounts
              DEFAULT_STATE in
  let frames := [(2, 4, "cc"); (3, 4, "dd"); (2, 4, "ee")] in
  (multipartData st !! 1 = Some [187]
   ∧ 1 ∉ (fun f : Z * Z * string => f.1.1) <$> frames)
  ∧ multipartData (submitFrames (Ext := E) frames Env.accounts st) !! 1 = Some [187].
Proof.
  intros E st frames.
  assert (H1 : multipartData st !! 1 = Some [187]) by (vm_compute; reflexivity).
  assert (H2 : 1 ∉ (fun f : Z * Z * string => f.1.1) <$> frames).
  { apply (bool_decide_unpack _). vm_compute. exact I. }
  split; [done|].
  exact (stored_frame_is_kept (Ext := E) frames Env.accounts st 1 [187] H1 H2).
Defined.

(** The index recorded after frames 0, 1, 3 of 5. *)
Lemma missedFrames_distinct_indices_witness :
  let E := Env.externals Env.signing in
  let st := submitFrames (Ext := E) [(0, 5, "aa"); (1, 5, "bb"); (3, 5, "dd")]
              Env.accounts DEFAULT_STATE in
  1 ∈ missedFrames st ∧ 0 ≤ 1 < totalFrameCount st.
Proof.
  intros E st.
  assert (H : 1 ∈ missedFrames st).
  { apply (bool_decide_unpack _). vm_compute. exact I. }
  split; [exact H|].
  exact (proj2 (missedFrames_distinct_indices (Ext := E)
                  [(0, 5, "aa"); (1, 5, "bb"); (3, 5, "dd")] Env.accounts) 1 H).
Defined.

(** Three frames in two orders. *)
Lemma reassembly_is_order_independent_witness :
  let E := Env.externals Env.signing in
  let st := submitFrames (Ext := E) [(0, 3, "aa")] Env.accounts DEFAULT_STATE in
  let frames1 := [(0, 3, "aa"); (1, 3, "bb"); (2, 3, "cc")] in
  let frames2 := [(2, 3, "cc"); (0, 3, "aa"); (1, 3, "bb")] in
  (Z.of_nat (size (multipartData st)) + Z.of_nat (length frames1) ≤ totalFrameCount st
   ∧ frames1 ≡ₚ frames2
   ∧ NoDup ((fun f : Z * Z * string => f.1.1) <$> frames1))
  ∧ multipartData (submitFrames (Ext := E) frames1 Env.accounts st)
    = multipartData (submitFrames (Ext := E) frames2 Env.accounts st).
Proof.
  intros E st frames1 frames2.
  assert (H1 : Z.of_nat (size (multipartData st)) + Z.of_nat (length frames1)
               ≤ totalFrameCount st) by (vm_compute; discriminate).
  assert (H2 : frames1 ≡ₚ frames2).
  { unfold frames1, frames2.
    etrans; [|apply Permutation_swap]. apply Permutation_skip, Permutation_swap. }
  assert (H3 : NoDup ((fun f : Z * Z * string => f.1.1) <$> frames1)).
  { apply (bool_decide_unpack _). vm_compute. exact I. }
  split; [done|].
  exact (proj1 (reassembly_is_order_independent (Ext := E) frames1 frames2 Env.accounts
                  st 0 H1 H2 H3)).
Defined.

(** Three bytes through the hexadecimal text. *)
Lemma partDataAsBytes_of_hex_witness :
  Forall (fun b => 0 ≤ b < 256) [0; 123; 255]
  ∧ partDataAsBytes (u8aToHex [0; 123; 255] false) = [0; 123; 255].
Proof.
  assert (H : Forall (fun b => 0 ≤ b < 256) [0; 123; 255]).
  { repeat constructor; lia. }
  split; [exact H|].
  exact (proj2 (partDataAsBytes_of_hex [0; 123; 255] "") H).
Defined.

(** Frame 1 after frame 0. *)
Lemma next_frame_records_no_miss_witness :
  let E := Env.externals Env.signing in
  let st := submitFrames (Ext := E) [(0, 3, "aa"); (1, 3, "bb"); (0, 3, "aa")]
              Env.accounts DEFAULT_STATE in
  (latestFrame st = Some 0 ∧ 1 = (0 + 1) `mod` totalFrameCount st)
  ∧ ∀ k, k ∈ missedFrames (setPartData (Ext := E) 1 3 "bb" Env.accounts st).1 →
         k ∈ missedFrames st.
Proof.
  intros E st.
  assert (H1 : latestFrame st = Some 0) by (vm_compute; reflexivity).
  assert (H2 : 1 = (0 + 1) `mod` totalFrameCount st) by (vm_compute; reflexivity).
  split; [done|].
  exact (next_frame_records_no_miss (Ext := E) 1 3 "bb" Env.accounts st 0 H1 H2).
Defined.

(** A request of a known account, decoded while a signing is prepared. *)
Lemma decoding_keeps_signing_fields_witness :
  let E := Env.externals Env.signing in
  let blob := [0; 0; 1; 0; 0; 42; 97; 108; 105; 99; 101] in
  let st := set_scanErrorMsg "earlier error" (Env.signingState (DString "hello") false) in
  let r := (setParsedData (Ext := E) blob Env.accounts false st).1 in
  (constructDataFromBytes (Externals := E) blob false
     = Ok (Complete (Env.request "*alice"))
   ∧ is_Some (getAccountByAddress Env.accounts "*alice"))
  ∧ sender r = Some Env.alice ∧ busy r = true
  ∧ scanErrorMsg r = "earlier error".
Proof.
  intros E blob st r.
  assert (H1 : constructDataFromBytes (Externals := E) blob false
               = Ok (Complete (Env.request "*alice"))) by reflexivity.
  assert (H2 : is_Some (getAccountByAddress Env.accounts "*alice")) by by eexists.
  destruct (decoding_keeps_signing_fields (Ext := E) blob false Env.accounts st
              (Env.request "*alice") H1) as [(Hb & Hs & _) He].
  split; [done|]. split; [exact Hs|]. split; [exact Hb|].
  exact (He (or_introl H2)).
Defined.

(** A signature for an account on the Ethereum main network. *)
Lemma ethereum_signature_is_untagged_witness :
  let E := Env.externals Env.signing in
  let st := set_transaction_request (DString "h:1abc") RequestEnv.eve DEFAULT_STATE in
  (sender st = Some RequestEnv.eve
   ∧ NETWORK_LIST "1"
     = Some {| title := "Ethereum"; prefix := None; protocol := ETHEREUM |}
   ∧ native (Externals := E) (BrainWalletSign "phrase" (DString "h:1abc")) = Ok "c0de")
  ∧ calls (signDataWithSuri (Ext := E) "phrase" st)
    = [BrainWalletSign "phrase" (DString "h:1abc")]
  ∧ signedData (after (signDataWithSuri (Ext := E) "phrase" st)) = "c0de".
Proof.
  intros E st.
  assert (H1 : sender st = Some RequestEnv.eve) by reflexivity.
  assert (H2 : NETWORK_LIST "1"
               = Some {| title := "Ethereum"; prefix := None; protocol := ETHEREUM |})
    by (vm_compute; reflexivity).
  assert (H3 : native (Externals := E) (BrainWalletSign "phrase" (DString "h:1abc"))
               = Ok "c0de") by reflexivity.
  destruct (ethereum_signature_is_untagged (Ext := E) st RequestEnv.eve _ false "phrase"
              H1 H2 eq_refl) as (_ & Hc & _ & Hs).
  split; [done|]. split; [exact Hc|].
  destruct (Hs "c0de" H3) as [-> _]. reflexivity.
Defined.

(** Signing for an account on Rinkeby, which the table does not list. *)
Lemma signing_needs_a_known_network_witness :
  let E := Env.externals Env.signing in
  let st := set_transaction_request (DString "h:4abc") RequestEnv.rinkeby DEFAULT_STATE in
  (sender st = Some RequestEnv.rinkeby
   ∧ NETWORK_LIST "4" = None
   ∧ "4" ∉ objectPrototypeNames)
  ∧ Forall (fun r => after r = st ∧ calls r = [] ∧ completion r = Throw "TypeError")
      [signDataBiometric (Ext := E) false st; signDataWithSuri (Ext := E) "phrase" st].
Proof.
  intros E st.
  assert (H1 : sender st = Some RequestEnv.rinkeby) by reflexivity.
  assert (H2 : NETWORK_LIST "4" = None) by (vm_compute; reflexivity).
  assert (H3 : "4" ∉ objectPrototypeNames).
  { unfold objectPrototypeNames. rewrite !elem_of_cons, elem_of_nil.
    intros H. repeat (destruct H as [H|H]; [discriminate|]). done. }
  split; [done|].
  apply (proj1 (signing_needs_a_known_network (Ext := E) st false "phrase")).
  right. exists RequestEnv.rinkeby. done.
Defined.


(** A Substrate transfer of a known account. *)
Lemma substrate_recipient_is_sender_witness :
  let R := RequestEnv.externals in
  let res := setTXRequest (Req := R) RequestEnv.transfer RequestEnv.accounts
               (RequestEnv.state DEFAULT_STATE) in
  (default "" (rlp (reqData RequestEnv.transfer)) = "" ∧ res.2 = Ok true)
  ∧ ∃ payload signer,
      data (reqData RequestEnv.transfer) = DPayload payload
      ∧ getById RequestEnv.accounts (account (reqData RequestEnv.transfer))
          (genesisHashHex (RequestExternals := R) payload) = Some signer
      ∧ sender res.1.1 = Some signer
      ∧ recipient res.1.2 = Some signer
      ∧ dataToSign res.1.1 = DPayload payload
      ∧ tx res.1.2 = TxData (DPayload payload).
Proof.
  intros R res.
  assert (H1 : default "" (rlp (reqData RequestEnv.transfer)) = "") by reflexivity.
  assert (H2 : res.2 = Ok true) by (vm_compute; reflexivity).
  split; [done|].
  exact (substrate_recipient_is_sender (Req := R) RequestEnv.transfer RequestEnv.accounts
           (RequestEnv.state DEFAULT_STATE) H1 H2).
Defined.


(** A request whose action is neither of the two. *)
Lemma setData_dispatch_witness :
  let E := Env.externals Env.signing in
  let R := RequestEnv.externals in
  let unsigned := withAccount (Env.request "*alice") "*alice" in
  let odd := {| action := "signNothing"; reqData := reqData unsigned;
                reqIsHash := false; oversized := false; preHash := None |} in
  let state := RequestEnv.state (set_unsignedData odd DEFAULT_STATE) in
  (unsignedData state.1 = Some odd
   ∧ action odd ≠ "signTransaction" ∧ action odd ≠ "signData")
  ∧ setData (Req := R) RequestEnv.accounts state
    = (state,
       Throw "Scanned QR should contain either transaction or a message to sign").
Proof.
  intros E R unsigned odd state.
  assert (H1 : unsignedData state.1 = Some odd) by reflexivity.
  assert (H2 : action odd ≠ "signTransaction") by discriminate.
  assert (H3 : action odd ≠ "signData") by discriminate.
  split; [done|].
  destruct (proj2 (setData_dispatch (Req := R) RequestEnv.accounts state) odd H1)
    as (_ & _ & Hodd & _).
  exact (Hodd H2 H3).
Defined.

(** An Ethereum account id, and an address that is no account id. *)
Lemma extractAddressFromAccountId_format_witness :
  (Identities.occurs ":" "ethereum" = false
   ∧ Identities.occurs ":" "abc123" = false
   ∧ Identities.occurs "@" "abc123" = false)
  ∧ Identities.extractAddressFromAccountId "ethereum:0xabc123@42" = Ok "abc123"
  ∧ (Identities.occurs ":" "5Gabc" = false
     ∧ Identities.extractAddressFromAccountId "5Gabc" = Throw "TypeError").
Proof.
  assert (H1 : Identities.occurs ":" "ethereum" = false) by reflexivity.
  assert (H2 : Identities.occurs ":" "abc123" = false) by reflexivity.
  assert (H3 : Identities.occurs "@" "abc123" = false) by reflexivity.
  assert (H4 : Identities.occurs ":" "5Gabc" = false) by reflexivity.
  destruct (extractAddressFromAccountId_format "ethereum" "abc123" "42" "5Gabc")
    as [Hno Hfmt].
  split; [done|]. split; [exact (proj2 (Hfmt H1 H2 H3))|].
  split; [done|exact (Hno H4)].
Defined.

(** The address of an Ethereum path. *)
Lemma getAddressWithPath_cases_witness :
  let meta :=
    [("//kusama", {| Identities.metaAddress := "5Gabc"; Identities.metaName := "k";
                     Identities.networkPathId := Some "kusama" |});
     ("1", {| Identities.metaAddress := "ethereum:0xabc123@1";
              Identities.metaName := "e"; Identities.networkPathId := None |})] in
  (List.find (fun e : string * Identities.AccountMeta => String.eqb e.1 "1") meta
   = Some ("1", {| Identities.metaAddress := "ethereum:0xabc123@1";
                   Identities.metaName := "e"; Identities.networkPathId := None |})
   ∧ Identities.occurs ":" "abc123" = false ∧ Identities.occurs "@" "abc123" = false)
  ∧ Identities.getAddressWithPath "1" meta = Ok "abc123".
Proof.
  intros meta.
  assert (H1 : List.find (fun e : string * Identities.AccountMeta => String.eqb e.1 "1")
                 meta
               = Some ("1", {| Identities.metaAddress := "ethereum:0xabc123@1";
                               Identities.metaName := "e";
                               Identities.networkPathId := None |})) by reflexivity.
  assert (H2 : Identities.occurs ":" "abc123" = false) by reflexivity.
  assert (H3 : Identities.occurs "@" "abc123" = false) by reflexivity.
  split; [done|].
  exact (proj2 (proj2 (getAddressWithPath_cases "1" meta) _ H1) "abc123" "1"
           eq_refl H2 H3).
Defined.

(** An identity with two maps and three strings. *)
Lemma deepCopyIdentity_id_witness :
  let identity : list (string * Identities.Field string) :=
    [("addresses", Identities.MapField [("5Gabc", "//kusama"); ("5Gdef", "")]);
     ("derivationPassword", Identities.Plain "");
     ("encryptedSeed", Identities.Plain "seed");
     ("meta", Identities.MapField [("//kusama", "meta1"); ("", "meta0")]);
     ("name", Identities.Plain "main")] in
  NoDup identity.*1 ∧ Identities.deepCopyIdentity identity = identity.
Proof.
  intros identity.
  assert (H1 : NoDup identity.*1).
  { apply (bool_decide_unpack _). vm_compute. exact I. }
  assert (H2 : Forall (fun e : string * Identities.Field string =>
                         match e.2 with
                         | Identities.Plain _ => True
                         | Identities.MapField entries => NoDup entries.*1
                         | Identities.ArrayField _ => False
                         end) identity).
  { repeat constructor; simpl; try exact I;
      apply (bool_decide_unpack _); vm_compute; exact I. }
  split; [exact H1|].
  exact (proj1 (deepCopyIdentity_id identity H1 H2)).
Defined.

(** A path id that no network has. *)
Lemma getNetworkKeyByPathId_substrate_witness :
  Forall (fun e : string * SubstrateNetworkParams => sPathId e.2 ≠ "polkadot")
    SUBSTRATE_NETWORK_LIST
  ∧ Identities.getNetworkKeyByPathId "polkadot" = "unknown".
Proof.
  assert (H : Forall (fun e : string * SubstrateNetworkParams =>
                        sPathId e.2 ≠ "polkadot") SUBSTRATE_NETWORK_LIST).
  { repeat constructor; discriminate. }
  split; [exact H|].
  exact (proj2 (getNetworkKeyByPathId_substrate "polkadot") H).
Defined.

(** The first submission of a session. *)
Lemma first_frame_records_count_only_witness :
  let E := Env.externals Env.signing in
  totalFrameCount DEFAULT_STATE = 0
  ∧ (setPartData (Ext := E) 0 3 "aa" Env.accounts DEFAULT_STATE).1
    = set_completedFramesCount 0 (set_totalFrameCount 3 DEFAULT_STATE).
Proof.
  intros E. split; [reflexivity|].
  exact (first_frame_records_count_only (Ext := E) 0 3 "aa" Env.accounts DEFAULT_STATE
           eq_refl).
Defined.

(** Five submissions for three frames. *)
Lemma completion_needs_two_more_submissions_witness :
  let E := Env.externals Env.signing in
  let frames := [(0, 3, "aa"); (0, 3, "aa"); (1, 3, "bb"); (2, 3, "cc"); (0, 3, "aa")] in
  let st := submitFrames (Ext := E) frames Env.accounts DEFAULT_STATE in
  multipartComplete st = true
  ∧ 0 < totalFrameCount st ∧ totalFrameCount st + 2 ≤ Z.of_nat (length frames).
Proof.
  intros E frames st.
  assert (H : multipartComplete st = true) by (vm_compute; reflexivity).
  split; [exact H|].
  exact (completion_needs_two_more_submissions (Ext := E) frames Env.accounts H).
Defined.
